(** * flow-delete: manifest reconciliation and flow version resolution

    A shallow embedding of the two scripts of the repository,
    [src/flow-delete.js] (module [flow_delete] below) and its
    near-duplicate [src/flowDelete.js] (module [flowDelete]), followed by
    the properties of the reconciliation core.

    The scripts work on the objects that [fast-xml-parser] and [JSON.parse]
    return, on files and on the output of the [sf] command line tool.  The
    embedding therefore has three layers:

    - [value]: JavaScript values as the parsers produce them, with the
      property reads and writes of the language ([get_prop], [set_prop]),
      which throw a [TypeError] on [undefined] and [null];
    - [M]: a state and exception monad over [world] (the files, the
      subprocess requests issued so far, the console);
    - the external collaborators (XML parser and builder, JSON parser,
      subprocess runner), gathered in the record [collaborators] and taken
      as a parameter everywhere. *)

From Stdlib Require Import ZArith List Ascii String.
From stdpp Require Import base option list strings gmap pretty.

Open Scope string_scope.
Open Scope list_scope.
Open Scope Z_scope.

(** ** JavaScript values *)

(** Numbers are integers here: the only numbers the scripts handle are
    version numbers and the sentinel [0]. *)
#[warnings="-register-all"]
Inductive value : Type :=
| VUndefined
| VNull
| VBool (b : bool)
| VNum (n : Z)
| VStr (s : string)
| VArr (elems : list value)
| VObj (props : list (string * value)).

(** The exceptions of a run.  [TypeError] is what the language throws on a
    property access on [undefined] or [null] and on a call of something that
    is not a function; [SystemError] stands for the errors of [fs];
    [ParserError] for those of the XML parser; [NotModelled] marks the one
    situation outside the embedding, an own property stored on an array. *)
Inductive error : Type :=
| TypeError
| SystemError
| ParserError
| NotModelled.

Inductive result (A : Type) : Type :=
| Ok (a : A)
| Throw (e : error).
Arguments Ok {A} a.
Arguments Throw {A} e.

#[global] Instance result_ret : MRet result := fun A a => Ok a.
#[global] Instance result_bind : MBind result := fun A B f r =>
  match r with
  | Ok a => f a
  | Throw e => Throw e
  end.

(** *** Objects: ordered property lists *)

Fixpoint lookup_prop (k : string) (ps : list (string * value)) : option value :=
  match ps with
  | [] => None
  | (k', v) :: ps' => if String.eqb k' k then Some v else lookup_prop k ps'
  end.

(** An assignment keeps the position of an existing property and appends a
    new one, as the property order of a JavaScript object does. *)
Fixpoint store_prop (k : string) (v : value) (ps : list (string * value))
  : list (string * value) :=
  match ps with
  | [] => [(k, v)]
  | (k', v') :: ps' =>
      if String.eqb k' k then (k, v) :: ps' else (k', v') :: store_prop k v ps'
  end.

(** [o.k].  None of the keys the scripts read ([Package], [types], [name],
    [members], [FlowDefinition], [result], [records], [Definition],
    [DeveloperName], [VersionNumber]) is a built-in property of strings,
    numbers, booleans or arrays, so these all read as [undefined]. *)
Definition get_prop (o : value) (k : string) : result value :=
  match o with
  | VUndefined | VNull => Throw TypeError
  | VObj ps => Ok (default VUndefined (lookup_prop k ps))
  | _ => Ok VUndefined
  end.

(** [o?.k] *)
Definition get_prop_opt (o : value) (k : string) : result value :=
  match o with
  | VUndefined | VNull => Ok VUndefined
  | _ => get_prop o k
  end.

(** [o.k = v], returning the object after the assignment.  The scripts run
    in sloppy mode (CommonJS, no strict directive): an assignment to a
    property of a primitive is silently dropped. *)
Definition set_prop (o : value) (k : string) (v : value) : result value :=
  match o with
  | VUndefined | VNull => Throw TypeError
  | VObj ps => Ok (VObj (store_prop k v ps))
  | VArr _ => Throw NotModelled
  | _ => Ok o
  end.

(** Truthiness, as used by [if (...)], [!], [? :] and [filter(Boolean)]. *)
Definition truthy (v : value) : bool :=
  match v with
  | VUndefined | VNull => false
  | VBool b => b
  | VNum n => negb (n =? 0)
  | VStr s => negb (String.eqb s "")
  | VArr _ | VObj _ => true
  end.

Definition isArray (v : value) : bool :=
  match v with VArr _ => true | _ => false end.

(** [a ?? b] *)
Definition nullish (a b : value) : value :=
  match a with
  | VUndefined | VNull => b
  | _ => a
  end.

(** [v === s] for a string [s]. *)
Definition strict_eq_str (v : value) (s : string) : bool :=
  match v with
  | VStr s' => String.eqb s' s
  | _ => false
  end.

(** [Array.isArray(x) ? x : [x]] *)
Definition as_array (x : value) : list value :=
  match x with
  | VArr l => l
  | _ => [x]
  end.

(** The index of the element [arr.find(cb)] returns, where [cb] reads
    [element.name] and compares it with [name]; [None] when [find] returns
    [undefined].  [find] returns a reference into the array, which the
    index stands for.  The callback throws on an [undefined] or [null]
    element, and elements after the match are not visited. *)
Fixpoint find_named (name : string) (arr : list value) : result (option nat) :=
  match arr with
  | [] => Ok None
  | e :: arr' =>
      n ← get_prop e "name";
      if strict_eq_str n name then Ok (Some 0%nat)
      else (r ← find_named name arr'; Ok (option_map S r))
  end.

(** *** [new Set(members)] spread back into an array *)

(** SameValueZero.  Primitives are compared by value; an object or array is
    only the same as itself, and the members of one list are distinct nodes
    of parsed documents, so two entries of a list are never the same
    object. *)
Definition same_value_zero (a b : value) : bool :=
  match a, b with
  | VUndefined, VUndefined => true
  | VNull, VNull => true
  | VBool x, VBool y => Bool.eqb x y
  | VNum x, VNum y => x =? y
  | VStr x, VStr y => String.eqb x y
  | _, _ => false
  end.

(** The values that [same_value_zero] compares by content. *)
Definition is_primitive (v : value) : bool :=
  match v with
  | VArr _ | VObj _ => false
  | _ => true
  end.

(** [[...new Set(l)]]: the first occurrence of every value, in insertion
    order.  [seen] is the set under construction, most recent first. *)
Fixpoint set_spread (seen : list value) (l : list value) : list value :=
  match l with
  | [] => []
  | x :: l' =>
      if existsb (same_value_zero x) seen then set_spread seen l'
      else x :: set_spread (x :: seen) l'
  end.

Definition dedupe (l : list value) : list value := set_spread [] l.

(** *** Strings *)

Definition hyphen : ascii := "-"%char.

(** [s.split('-').at(0)]: the text before the first hyphen (all of [s]
    when it has none). *)
Fixpoint split_first (s : string) : string :=
  match s with
  | EmptyString => EmptyString
  | String c s' =>
      if Ascii.eqb c hyphen then EmptyString else String c (split_first s')
  end.

(** [arr.join(sep)] on strings. *)
Fixpoint join (sep : string) (l : list string) : string :=
  match l with
  | [] => ""
  | [x] => x
  | x :: l' => x +:+ sep +:+ join sep l'
  end.

(** String conversion, as a template literal performs it. *)
Fixpoint to_string (v : value) : string :=
  match v with
  | VUndefined => "undefined"
  | VNull => "null"
  | VBool true => "true"
  | VBool false => "false"
  | VNum n => pretty n
  | VStr s => s
  | VArr l =>
      join "," (map (fun e => match e with
                              | VUndefined | VNull => ""
                              | _ => to_string e
                              end) l)
  | VObj _ => "[object Object]"
  end.

(** [arr.map(f)]: [arr] has to be an array (anything else has no callable
    [map], a [TypeError]); the callback runs in order and the first
    exception ends the loop. *)
Definition js_map (f : value → result value) (arr : value) : result (list value) :=
  match arr with
  | VArr l => mapM f l
  | _ => Throw TypeError
  end.

(** [[...x]] inside an array literal.  A string spreads into its
    characters (one per byte here, which is exact for ASCII text);
    [undefined], [null], numbers, booleans and plain objects are not
    iterable. *)
Definition spread (x : value) : result (list value) :=
  match x with
  | VArr l => Ok l
  | VStr s => Ok (map (fun c => VStr (String c "")) (list_ascii_of_string s))
  | _ => Throw TypeError
  end.

(** Keeps in the enclosing object [o] the property object [v] that was
    read from [o.k] and then assigned to in place: [o.k] and [v] are the
    same object. *)
Definition write_back (o : value) (k : string) (v : value) : value :=
  match o with
  | VObj ps => VObj (store_prop k v ps)
  | _ => o
  end.

(** ** The world of a run *)

(** [files]: the contents of the files by path (directories are not
    tracked: [fs.mkdirSync(dir, {recursive: true})] changes no file).
    [requests]: the subprocesses spawned so far, oldest first, as command
    and arguments.  [console]: the lines logged so far. *)
Record world : Type := World {
  files : gmap string string;
  requests : list (string * list string);
  console : list string
}.

(** The external collaborators.  [run_process cmd args fs] is the effect of
    the subprocess on the files and its [output] array, whose entries are
    [null] ([None]) or strings. *)
Record collaborators : Type := Collaborators {
  xml_parse : string → result value;
  xml_build : value → string;
  json_parse : string → option value;
  run_process : string → list string → gmap string string →
                gmap string string * list (option string)
}.

(** State and exception monad: an exception keeps the effects that came
    before it. *)
Definition M (A : Type) : Type := world → result A * world.

#[global] Instance M_ret : MRet M := fun A a w => (Ok a, w).
#[global] Instance M_bind : MBind M := fun A B f m w =>
  match m w with
  | (Ok a, w') => f a w'
  | (Throw e, w') => (Throw e, w')
  end.

Definition lift {A} (r : result A) : M A := fun w => (r, w).

(** [arr.forEach(f)] *)
Fixpoint forEach {A} (f : A → M unit) (l : list A) : M unit :=
  match l with
  | [] => mret tt
  | x :: l' => f x ;; forEach f l'
  end.

(** Functions that are the same, line for line, in both scripts. *)
Section Shared.
Context (ext : collaborators).

(** [readFile]: [fs.readFileSync(path, "utf-8")] *)
Definition readFile (path : string) : M string := fun w =>
  match files w !! path with
  | Some data => (Ok data, w)
  | None => (Throw SystemError, w)
  end.

(** [writeFile]: [fs.writeFileSync(path, data)] *)
Definition writeFile (path data : string) : M unit := fun w =>
  (Ok tt, World (<[path := data]> (files w)) (requests w) (console w)).

Definition existsSync (path : string) : M bool := fun w =>
  (Ok (bool_decide (is_Some (files w !! path))), w).

Definition mkdirSync (dir : string) : M unit := mret tt.

Definition console_log (line : string) : M unit := fun w =>
  (Ok tt, World (files w) (requests w) (console w ++ [line])).

(** [spawnSync(cmd, args, ...).output] *)
Definition spawnSync (cmd : string) (args : list string) : M (list (option string)) :=
  fun w =>
    let '(fs, output) := run_process ext cmd args (files w) in
    (Ok output, World fs (requests w ++ [(cmd, args)]) (console w)).

Definition parse (data : string) : M value := lift (xml_parse ext data).

Definition toXML (data : value) : string := xml_build ext data.

Definition dquote : string := String "034"%char "".

(** The [query] template of [fetchFlowVersions]. *)
Definition soql (formatted : string) : string :=
  dquote +:+ "SELECT Id, Definition.DeveloperName, VersionNumber, Status FROM Flow WHERE Definition.DeveloperName IN ("
         +:+ formatted +:+ ")" +:+ dquote.

Definition query_args (query : string) : list string :=
  ["data"; "query"; "--use-tooling-api"; "--json"; "--query"; query].

(** [flows.filter(Boolean).map((flow) => `'${flow}'`).join(",")] *)
Definition format_names (flows : list value) : string :=
  join "," (map (fun flow => "'" +:+ to_string flow +:+ "'") (List.filter truthy flows)).

(** The callback of [versions.at(0).result.records.map]. *)
Definition format_version (version : value) : result value :=
  d ← get_prop version "Definition";
  n ← get_prop d "DeveloperName";
  v ← get_prop version "VersionNumber";
  Ok (VStr (to_string n +:+ "-" +:+ to_string v)).

(** [response.output.filter(Boolean).map(...)]: the non-empty entries,
    each parsed as JSON, or kept as a string when that fails. *)
Definition parse_output (output : list (option string)) : list value :=
  omap (fun entry =>
          match entry with
          | Some s =>
              if String.eqb s "" then None
              else Some (default (VStr s) (json_parse ext s))
          | None => None
          end) output.

(** [fetchFlowVersions] ([src/flow-delete.js] 140-162, [src/flowDelete.js]
    99-117).  Both callers pass an array. *)
Definition fetchFlowVersions (flows : list value) : M (list value) :=
  let formatted := format_names flows in
  let query := soql formatted in
  output ← spawnSync "sf" (query_args query);
  let versions := parse_output output in
  lift (r ← get_prop (default VUndefined (head versions)) "result";
        recs ← get_prop r "records";
        js_map format_version recs).
End Shared.

(** ** [src/flow-delete.js] *)
Module flow_delete.
Section Script.
Context (ext : collaborators).

(** [filterType] (lines 256-273).  The matching entry is returned by
    reference and its [members] normalised in place; the result is the
    entry after that assignment. *)
Definition filterType (manifest : value) (name : string) : result value :=
  let result0 := VObj [("members", VArr []); ("name", VStr name)] in
  pkg ← get_prop manifest "Package";
  t ← get_prop_opt pkg "types";
  if negb (truthy t) then Ok result0
  else
    let types := as_array t in
    i ← find_named name types;
    let type := default VUndefined (i ≫= (types !!.)) in
    if truthy type then
      m ← get_prop type "members";
      set_prop type "members" (if isArray m then m else VArr [m])
    else Ok result0.

(** The callback of line 52: [flow.split('-').at(0)].  Only strings have
    a [split] method. *)
Definition strip_version (flow : value) : result value :=
  match flow with
  | VStr s => Ok (VStr (split_first s))
  | _ => Throw TypeError
  end.

(** [deletedFlows] (lines 50-53) *)
Definition deletedFlows (destructiveXml : value) : result (list value) :=
  t ← filterType destructiveXml "Flow";
  m ← get_prop t "members";
  js_map strip_version m.

(** [existingDefinitions] (lines 45-47); [filterType] is called twice. *)
Definition existingDefinitions (manifest : value) : result value :=
  t ← filterType manifest "FlowDefinition";
  if truthy t then (t' ← filterType manifest "FlowDefinition"; get_prop t' "members")
  else Ok (VArr []).

(** [createFlowDefinition] (lines 98-106) *)
Definition createFlowDefinition : value :=
  VObj [("?xml", VObj [("@_version", VStr "1.0"); ("@_encoding", VStr "UTF-8")]);
        ("FlowDefinition",
         VObj [("activeVersionNumber", VNum 0);
               ("@_xmlns", VStr "http://soap.sforce.com/2006/04/metadata")])].

Definition definition_path (flow : value) : string :=
  "./force-app/main/default/flowDefinitions/" +:+ to_string flow +:+ ".flowDefinition-meta.xml".

(** [fd.FlowDefinition.activeVersionNumber = 0] on a parsed descriptor. *)
Definition deactivate_descriptor (fd : value) : result value :=
  d ← get_prop fd "FlowDefinition";
  d' ← set_prop d "activeVersionNumber" (VNum 0);
  Ok (write_back fd "FlowDefinition" d').

(** The callback of [flows.forEach] in [deactivateFlows] (lines 78-92). *)
Definition deactivateFlow (flow : value) : M unit :=
  let filePath := definition_path flow in
  ex ← existsSync filePath;
  fd ← (if ex : bool then
          data ← readFile filePath;
          fd ← parse ext data;
          lift (deactivate_descriptor fd)
        else mret createFlowDefinition);
  writeFile filePath (toXML ext fd);;
  console_log (to_string flow +:+ " - deactivated").

(** [deactivateFlows] (lines 74-93) *)
Definition deactivateFlows (flows : list value) : M unit :=
  mkdirSync "./force-app/main/default/flowDefinitions";;
  forEach deactivateFlow flows.

(** The body of [updateManifest] between [parse] and [writeFile] (lines
    118-130), on the parsed document.  [manifest.Package] is one object,
    read and assigned to several times; the last line puts it back into
    [manifest]. *)
Definition updateManifest_doc (manifest : value) (members : list value) (type : string)
  : result value :=
  pkg ← get_prop manifest "Package";
  t0 ← get_prop pkg "types";
  pkg ← set_prop pkg "types" (nullish t0 (VArr []));
  t ← get_prop pkg "types";
  let types := as_array t in
  i ← find_named type types;
  let element := default VUndefined (i ≫= (types !!.)) in
  types ← (if truthy element then
             element' ← set_prop element "members" (VArr (dedupe members));
             Ok (<[default 0%nat i := element']> types)
           else
             Ok (types ++ [VObj [("members", VArr members); ("name", VStr type)]]));
  pkg ← set_prop pkg "types" (VArr types);
  Ok (write_back manifest "Package" pkg).

(** [updateManifest] (lines 114-133) *)
Definition updateManifest (path : string) (members : list value) (type : string) : M unit :=
  data ← readFile path;
  manifest ← parse ext data;
  manifest ← lift (updateManifest_doc manifest members type);
  writeFile path (toXML ext manifest).

(** The top level of the script from line 41 on (the installation of the
    dependencies and the reading of the two command line options come
    before it). *)
Definition main (packagePath destructivePath : string) : M unit :=
  d ← readFile destructivePath;
  destructiveXml ← parse ext d;
  p ← readFile packagePath;
  manifest ← parse ext p;
  existing ← lift (existingDefinitions manifest);
  deleted ← lift (deletedFlows destructiveXml);
  if (0 <? length deleted)%nat then
    flowDefinitions ← lift (if truthy existing
                            then (e ← spread existing; Ok (e ++ deleted))
                            else Ok deleted);
    deactivateFlows deleted;;
    updateManifest packagePath flowDefinitions "FlowDefinition";;
    versions ← fetchFlowVersions ext deleted;
    updateManifest destructivePath versions "Flow"
  else
    console_log "Destructive manifest does not contain flows".
End Script.
End flow_delete.

(** ** [src/flowDelete.js] *)
Module flowDelete.
Section Script.
Context (ext : collaborators).

(** [filterType] (lines 218-233): the entry is returned as it is. *)
Definition filterType (manifest : value) (name : string) : result value :=
  let result0 := VObj [("members", VArr []); ("name", VStr name)] in
  pkg ← get_prop manifest "Package";
  t ← get_prop_opt pkg "types";
  if negb (truthy t) then Ok result0
  else
    let types := as_array t in
    i ← find_named name types;
    let type := default VUndefined (i ≫= (types !!.)) in
    if truthy type then Ok type else Ok result0.

(** [deletedFlows] (line 24) *)
Definition deletedFlows (destructiveXml : value) : result value :=
  t ← filterType destructiveXml "Flow";
  get_prop t "members".

(** [existingDefinitions] (line 23) *)
Definition existingDefinitions (manifest : value) : result value :=
  t ← filterType manifest "FlowDefinition";
  if truthy t then (t' ← filterType manifest "FlowDefinition"; get_prop t' "members")
  else Ok (VArr []).

(** [deletedFlows.length > 0].  Arrays and strings have a length; on a
    number or a boolean [length] is [undefined], and the comparison of
    [undefined] with [0] is false; a plain object has the [length] it was
    parsed with, if any, and the comparison is modelled when that is a
    number. *)
Definition length_positive (v : value) : result bool :=
  match v with
  | VUndefined | VNull => Throw TypeError
  | VArr l => Ok (0 <? length l)%nat
  | VStr s => Ok (0 <? String.length s)%nat
  | VNum _ | VBool _ => Ok false
  | VObj ps =>
      match lookup_prop "length" ps with
      | None | Some VUndefined => Ok false
      | Some (VNum n) => Ok (0 <? n)
      | Some _ => Throw NotModelled
      end
  end.

Definition definition_path (flow : value) : string :=
  "./force-app/main/default/flowDefinitions/" +:+ to_string flow +:+ ".flowDefinition-meta.xml".

(** The callback of the second [flows.forEach] (lines 57-66). *)
Definition deactivateFlow (flow : value) : M unit :=
  let filePath := definition_path flow in
  data ← readFile filePath;
  fd ← parse ext data;
  fd ← lift (d ← get_prop fd "FlowDefinition";
             d' ← set_prop d "activeVersionNumber" (VNum 0);
             Ok (write_back fd "FlowDefinition" d'));
  writeFile filePath (toXML ext fd);;
  console_log (to_string flow +:+ " - deactivated").

(** [deactivateFlows] (lines 47-67).  Only an array has [forEach]. *)
Definition deactivateFlows (flows : value) : M unit :=
  match flows with
  | VArr l =>
      let params := ["project"; "retrieve"; "start"]
                    ++ flat_map (fun flow => ["--metadata"; "flow:" +:+ to_string flow]) l in
      spawnSync ext "sf" params;;
      forEach deactivateFlow l
  | _ => lift (Throw TypeError)
  end.

(** The body of [updateManifest] between [parse] and [writeFile] (lines
    78-88). *)
Definition updateManifest_doc (manifest : value) (members : list value) (type : string)
  : result value :=
  pkg ← get_prop manifest "Package";
  t ← get_prop pkg "types";
  let types := as_array t in
  i ← find_named type types;
  let element := default VUndefined (i ≫= (types !!.)) in
  types ← (if truthy element then
             element' ← set_prop element "members" (VArr (dedupe members));
             Ok (<[default 0%nat i := element']> types)
           else
             Ok (types ++ [VObj [("members", VArr members); ("name", VStr type)]]));
  pkg ← set_prop pkg "types" (VArr types);
  Ok (write_back manifest "Package" pkg).

(** [updateManifest] (lines 75-92) *)
Definition updateManifest (path : string) (members : list value) (type : string) : M unit :=
  data ← readFile path;
  manifest ← parse ext data;
  manifest ← lift (updateManifest_doc manifest members type);
  writeFile path (toXML ext manifest).

(** The top level of the script from line 19 on.  [deactivateFlows]
    throws unless [deletedFlows] is an array, so [flowDefinitions] is an
    array whenever [updateManifest] is reached. *)
Definition main (packagePath destructivePath : string) : M unit :=
  d ← readFile destructivePath;
  destructiveXml ← parse ext d;
  p ← readFile packagePath;
  manifest ← parse ext p;
  existing ← lift (existingDefinitions manifest);
  deleted ← lift (deletedFlows destructiveXml);
  nonempty ← lift (length_positive deleted);
  if nonempty : bool then
    flowDefinitions ← lift (if truthy existing
                            then (e ← spread existing; d ← spread deleted; Ok (VArr (e ++ d)))
                            else Ok deleted);
    deactivateFlows deleted;;
    updateManifest packagePath (as_array flowDefinitions) "FlowDefinition";;
    versions ← fetchFlowVersions ext (as_array deleted);
    updateManifest destructivePath versions "Flow"
  else
    console_log "Destructive manifest does not contain flows".
End Script.
End flowDelete.

(** ** Vocabulary of the statements *)

(** The document [updateManifest] builds from a manifest [{...mps}] whose
    [Package] is [{...pps}]: the same, with [types] as the [Package.types]. *)
Definition with_types (mps pps : list (string * value)) (types : list value) : value :=
  VObj (store_prop "Package" (VObj (store_prop "types" (VArr types) pps)) mps).

(** The entry [{...eps}] after [element.members = [...new Set(members)]]. *)
Definition merged_entry (eps : list (string * value)) (members : list value) : value :=
  VObj (store_prop "members" (VArr (dedupe members)) eps).

(** *** Example documents

    A parsed [package.xml] or [destructiveChanges.xml]: the [Package]
    element with its namespace attribute, the given [types] and the
    [version]. *)
Definition example_manifest (types : value) : value :=
  VObj [("?xml", VObj [("@_version", VStr "1.0"); ("@_encoding", VStr "UTF-8")]);
        ("Package",
         VObj [("types", types);
               ("version", VNum 60);
               ("@_xmlns", VStr "http://soap.sforce.com/2006/04/metadata")])].

(** A [types] element as the parser returns it, with several members. *)
Definition example_type (name : string) (members : list string) : value :=
  VObj [("members", VArr (VStr <$> members)); ("name", VStr name)].

(** [manifest] has an entry that [updateManifest] finds under [type]. *)
Definition has_entry (manifest : value) (type : string) : bool :=
  match (pkg ← get_prop manifest "Package";
         t ← get_prop pkg "types";
         find_named type (as_array t)) with
  | Ok (Some _) => true
  | _ => false
  end.

(** A parsed manifest whose [Package] has no [types] at all. *)
Definition example_manifest_without_types : value :=
  VObj [("?xml", VObj [("@_version", VStr "1.0"); ("@_encoding", VStr "UTF-8")]);
        ("Package",
         VObj [("version", VNum 60);
               ("@_xmlns", VStr "http://soap.sforce.com/2006/04/metadata")])].

(** A [types] element with one member, which the parser returns as a
    scalar. *)
Definition example_type_scalar (name member : string) : value :=
  VObj [("members", VStr member); ("name", VStr name)].

(** A parsed flow definition with an active version. *)
Definition example_descriptor (active : Z) : value :=
  VObj [("?xml", VObj [("@_version", VStr "1.0"); ("@_encoding", VStr "UTF-8")]);
        ("FlowDefinition",
         VObj [("activeVersionNumber", VNum active);
               ("description", VStr "kept");
               ("@_xmlns", VStr "http://soap.sforce.com/2006/04/metadata")])].

(** *** Collaborators for the examples

    A fixed table stands for the XML parser (the text of a file is looked
    up in [docs]) and another one for [JSON.parse]; the builder prints the
    object in a JSON-like notation.  [sf project retrieve] writes the files
    [retrieved]; every other subprocess prints [stdout] and writes
    nothing. *)
Fixpoint assoc {A} (k : string) (table : list (string * A)) : option A :=
  match table with
  | [] => None
  | (k', a) :: table' => if String.eqb k' k then Some a else assoc k table'
  end.

Fixpoint render (v : value) : string :=
  match v with
  | VUndefined => "undefined"
  | VNull => "null"
  | VBool true => "true"
  | VBool false => "false"
  | VNum n => pretty n
  | VStr s => "'" +:+ s +:+ "'"
  | VArr l => "[" +:+ join "," (map render l) +:+ "]"
  | VObj ps =>
      "{" +:+ join "," (map (fun p => match p with (k, x) => k +:+ ":" +:+ render x end) ps) +:+ "}"
  end.

Definition example_collaborators
    (docs : list (string * value)) (retrieved : list (string * string))
    (stdout : string) (json : list (string * value)) : collaborators :=
  {| xml_parse := fun data =>
       match assoc data docs with
       | Some doc => Ok doc
       | None => Throw ParserError
       end;
     xml_build := render;
     json_parse := fun text => assoc text json;
     run_process := fun cmd args fs =>
       match args with
       | "project" :: _ =>
           (foldr (fun f acc => <[f.1 := f.2]> acc) fs retrieved, [None; None; None])
       | _ => (fs, [None; Some stdout; Some ""])
       end |}.

(** The response of [sf data query --json] with the given records. *)
Definition example_response (records : list value) : value :=
  VObj [("status", VNum 0);
        ("result", VObj [("records", VArr records);
                         ("totalSize", VNum (Z.of_nat (length records)));
                         ("done", VBool true)])].

Definition example_record (name : string) (version : Z) (status : string) : value :=
  VObj [("attributes", VObj [("type", VStr "Flow")]);
        ("Id", VStr "301");
        ("Definition", VObj [("attributes", VObj [("type", VStr "FlowDefinition")]);
                             ("DeveloperName", VStr name)]);
        ("VersionNumber", VNum version);
        ("Status", VStr status)].

(** *** Example runs *)

(** The files of a project before a run: the two manifests. *)
Definition example_world : world :=
  World (<["package.xml" := "<package/>"]> (<["destructiveChanges.xml" := "<destructive/>"]> ∅))
        [] [].

(** A destructive manifest that an earlier run has qualified with
    versions, handed to [src/flowDelete.js]. *)
Definition example_run_flowDelete : collaborators :=
  example_collaborators
    [("<package/>", example_manifest (example_type "ApexClass" ["Foo"; "Bar"]));
     ("<destructive/>", example_manifest (example_type "Flow" ["MyFlow-3"; "Other-1"]));
     ("<descriptor/>", example_descriptor 3)]
    [(flowDelete.definition_path (VStr "MyFlow-3"), "<descriptor/>");
     (flowDelete.definition_path (VStr "Other-1"), "<descriptor/>")]
    "{json}"
    [("{json}", example_response [])].

(** A destructive manifest that names one flow with two hyphens, handed to
    [src/flow-delete.js]. *)
Definition example_run_flow_delete : collaborators :=
  example_collaborators
    [("<package/>", example_manifest (example_type "ApexClass" ["Foo"; "Bar"]));
     ("<destructive/>", example_manifest (example_type_scalar "Flow" "My-Flow-3"))]
    []
    "{json}"
    [("{json}", example_response [])].

(** A destructive manifest whose [types] is a bare text, not a type entry. *)
Definition example_run_malformed : collaborators :=
  example_collaborators
    [("<destructive/>", example_manifest (VStr "junk"))] [] "{json}" [].

(** *** Remote version records *)

Record RemoteVersionRecord : Type := {
  artifactName : string;
  versionNumber : Z;
  status : string
}.

(** [rv] is the record [r] in the response of the query, which selects
    [Definition.DeveloperName], [VersionNumber] and [Status]. *)
Definition encodes (r : RemoteVersionRecord) (rv : value) : Prop :=
  (d ← get_prop rv "Definition"; get_prop d "DeveloperName") = Ok (VStr (artifactName r)) ∧
  get_prop rv "VersionNumber" = Ok (VNum (versionNumber r)) ∧
  get_prop rv "Status" = Ok (VStr (status r)).

(** The deletable identifier [{artifactName}-{versionNumber}]. *)
Definition deletable (r : RemoteVersionRecord) : string :=
  artifactName r +:+ "-" +:+ pretty (versionNumber r).

(** A project whose destructive manifest lists one flow; the parser
    returns the one member as a scalar. *)
Definition example_run_single_flow : collaborators :=
  example_collaborators
    [("<package/>", example_manifest (example_type "ApexClass" ["Foo"; "Bar"]));
     ("<destructive/>", example_manifest (example_type_scalar "Flow" "FlowA"))]
    [(flowDelete.definition_path (VStr "FlowA"), "<descriptor/>")]
    "{json}" [("{json}", example_response [example_record "FlowA" 2 "Active"])].

(** A project whose destructive manifest lists no flow. *)
Definition example_run_no_flows : collaborators :=
  example_collaborators
    [("<package/>", example_manifest (example_type "ApexClass" ["Foo"; "Bar"]));
     ("<destructive/>", example_manifest (example_type_scalar "ApexClass" "Old"))]
    [] "{json}" [("{json}", example_response [])].

(** The remote has version 2 of [FlowA], versions 1 and 2 of [FlowB] and
    nothing of [FlowC]. *)
Definition example_records : list RemoteVersionRecord :=
  [ {| artifactName := "FlowA"; versionNumber := 2; status := "Active" |};
    {| artifactName := "FlowB"; versionNumber := 1; status := "Obsolete" |};
    {| artifactName := "FlowB"; versionNumber := 2; status := "Draft" |} ].

Definition example_run_versions : collaborators :=
  example_collaborators
    [("<package/>", example_manifest (example_type "ApexClass" ["Foo"; "Bar"]));
     ("<destructive/>", example_manifest (example_type "Flow" ["FlowA"; "FlowB"; "FlowC"]))]
    [] "{json}"
    [("{json}",
      example_response
        ((fun r => example_record (artifactName r) (versionNumber r) (status r))
           <$> example_records))].

(** A project that holds the definition of [FlowB], active in version 3,
    and none of [FlowA]. *)
Definition example_run_descriptors : collaborators :=
  example_collaborators [("<descriptor/>", example_descriptor 3)] [] "" [].

Definition example_world_descriptors : world :=
  World {[ flow_delete.definition_path (VStr "FlowB") := "<descriptor/>" ]} [] [].

(** ** [findProjectRoot]

    The function is the same in both scripts ([src/flow-delete.js] 169-178,
    [src/flowDelete.js] 125-134).  A directory is an absolute, normalised
    POSIX path, kept as the list of its segments, innermost first:
    [["src"; "repo"; "home"]] is [/home/repo/src], and [[]] is the root
    [/], which is what [path.parse(dir).root] returns for every such
    path. *)
Definition dir_path (dir : list string) : string := "/" +:+ join "/" (rev dir).

(** [path.join(dir, "package.json")] *)
Definition package_json (dir : list string) : string :=
  match dir with
  | [] => "/package.json"
  | _ => dir_path dir +:+ "/package.json"
  end.

(** The loop of [findProjectRoot] over the files [fs]; [path.resolve(dir,
    "..")] is the tail of the list.  [None] stands for the [Error] thrown
    after the loop. *)
Fixpoint findProjectRoot (fs : gmap string string) (dir : list string)
  : option (list string) :=
  match dir with
  | [] => None
  | _ :: parent =>
      if bool_decide (is_Some (fs !! package_json dir)) then Some dir
      else findProjectRoot fs parent
  end.

(** ** Documents as the parsers return them

    Neither the XML parser nor [JSON.parse] on the output of a query puts
    [undefined] inside a document, and the XML parser puts no [null]
    either. *)
Fixpoint parsed (v : value) : bool :=
  match v with
  | VUndefined | VNull => false
  | VArr l => forallb parsed l
  | VObj ps => forallb (fun p => match p with (_, x) => parsed x end) ps
  | _ => true
  end.

(** A string without a hyphen. *)
Definition hyphen_free (s : string) : Prop :=
  ∀ c, c ∈ list_ascii_of_string s → c ≠ hyphen.

(** A query that prints nothing at all. *)
Definition example_run_silent : collaborators :=
  example_collaborators
    [("<package/>", example_manifest (example_type "ApexClass" ["Foo"; "Bar"]));
     ("<destructive/>", example_manifest (example_type "Flow" ["FlowA"; "FlowB"]))]
    [] "" [].

(** A project whose definition of [FlowB] has no [FlowDefinition] element. *)
Definition example_run_broken_descriptor : collaborators :=
  example_collaborators [("<descriptor/>", VObj [("Flow", VStr "")])] [] "" [].

(** A project whose definition of [FlowB] is an empty [FlowDefinition]
    element without attributes, which the parser returns as an empty
    string. *)
Definition example_empty_descriptor : value :=
  VObj [("?xml", VObj [("@_version", VStr "1.0"); ("@_encoding", VStr "UTF-8")]);
        ("FlowDefinition", VStr "")].



(** * Properties *)

(** ** Property lists *)

Lemma lookup_store_eq k v ps : lookup_prop k (store_prop k v ps) = Some v.
Proof.
  induction ps as [|[k' v'] ps IH]; simpl.
  - now rewrite String.eqb_refl.
  - destruct (String.eqb k' k) eqn:E; simpl.
    + now rewrite String.eqb_refl.
    + now rewrite E.
Qed.

Lemma lookup_store_ne k k' v ps :
  k ≠ k' → lookup_prop k' (store_prop k v ps) = lookup_prop k' ps.
Proof.
  intros Hne. induction ps as [|[k0 v0] ps IH]; simpl.
  - destruct (String.eqb k k') eqn:E; [apply String.eqb_eq in E; contradiction|done].
  - destruct (String.eqb k0 k) eqn:E; simpl.
    + apply String.eqb_eq in E. subst k0.
      destruct (String.eqb k k') eqn:E'; [apply String.eqb_eq in E'; contradiction|done].
    + now rewrite IH.
Qed.

Lemma store_store k v v' ps :
  store_prop k v (store_prop k v' ps) = store_prop k v ps.
Proof.
  induction ps as [|[k0 v0] ps IH]; simpl.
  - now rewrite String.eqb_refl.
  - destruct (String.eqb k0 k) eqn:E; simpl.
    + now rewrite String.eqb_refl.
    + now rewrite E, IH.
Qed.

Lemma store_same k v ps : lookup_prop k ps = Some v → store_prop k v ps = ps.
Proof.
  induction ps as [|[k0 v0] ps IH]; simpl; [done|].
  destruct (String.eqb k0 k) eqn:E.
  - apply String.eqb_eq in E. now intros [= ->]; subst.
  - intros H. now rewrite IH.
Qed.

(** An assignment changes no other property. *)
Lemma get_set_ne o o' k k' v :
  set_prop o k v = Ok o' → k ≠ k' → get_prop o' k' = get_prop o k'.
Proof.
  destruct o; simpl; intros [= <-] Hne; simpl; try done.
  now rewrite lookup_store_ne.
Qed.

Lemma get_set_obj ps k v :
  get_prop (VObj (store_prop k v ps)) k = Ok v.
Proof. simpl. now rewrite lookup_store_eq. Qed.

(** A property that reads as something else than [undefined] belongs to a
    plain object. *)
Lemma get_prop_defined o k v :
  get_prop o k = Ok v → v ≠ VUndefined → ∃ ps, o = VObj ps ∧ lookup_prop k ps = Some v.
Proof.
  destruct o; simpl; intros [= <-] Hv; try done.
  exists props. split; [done|]. destruct (lookup_prop k props); simpl in *; congruence.
Qed.

(** ** [find] *)

Lemma strict_eq_str_true v s : strict_eq_str v s = true → v = VStr s.
Proof.
  destruct v; simpl; try done. intros H. apply String.eqb_eq in H. now subst.
Qed.

(** What [find] found is a plain object whose [name] is the one sought. *)
Lemma find_named_Some name arr i :
  find_named name arr = Ok (Some i) →
  ∃ ps, arr !! i = Some (VObj ps) ∧ lookup_prop "name" ps = Some (VStr name).
Proof.
  revert i. induction arr as [|e arr IH]; intros i; simpl; [done|].
  destruct (get_prop e "name") as [n|] eqn:En; simpl; [|done].
  destruct (strict_eq_str n name) eqn:Es.
  - intros [= <-]. apply strict_eq_str_true in Es. subst n.
    destruct (get_prop_defined _ _ _ En) as (ps & -> & Hps); [done|].
    now exists ps.
  - destruct (find_named name arr) as [[j|]|] eqn:Ef; simpl; try done.
    intros [= <-]. now apply IH.
Qed.

(** [find] only looks at the names. *)
Lemma find_named_ext name arr arr' :
  Forall2 (fun a b => get_prop a "name" = get_prop b "name") arr arr' →
  find_named name arr = find_named name arr'.
Proof.
  induction 1 as [|a b arr arr' Hab _ IH]; simpl; [done|].
  now rewrite Hab, IH.
Qed.

Lemma find_named_insert name arr i ps v :
  arr !! i = Some (VObj ps) →
  find_named name (<[i := VObj (store_prop "members" v ps)]> arr) = find_named name arr.
Proof.
  intros Hi. apply find_named_ext.
  apply Forall2_same_length_lookup. split; [now rewrite length_insert|].
  intros j a b Ha Hb.
  destruct (decide (i = j)) as [->|Hne].
  - rewrite list_lookup_insert_eq in Ha by (now apply lookup_lt_Some in Hi).
    injection Ha as <-. rewrite Hi in Hb. injection Hb as <-.
    simpl. now rewrite lookup_store_ne.
  - rewrite list_lookup_insert_ne in Ha by done. congruence.
Qed.

Lemma find_named_snoc name arr e :
  find_named name arr = Ok None →
  find_named name (arr ++ [e]) =
    (n ← get_prop e "name";
     if strict_eq_str n name then Ok (Some (length arr)) else Ok None).
Proof.
  induction arr as [|a arr IH]; simpl.
  - intros _. destruct (get_prop e "name") as [n|]; simpl; [|done].
    now destruct (strict_eq_str n name).
  - destruct (get_prop a "name") as [n|]; simpl; [|done].
    destruct (strict_eq_str n name); [done|].
    destruct (find_named name arr) as [[j|]|] eqn:Ef; simpl; try done.
    intros _. rewrite IH by done.
    destruct (get_prop e "name") as [n'|]; simpl; [|done].
    now destruct (strict_eq_str n' name).
Qed.

(** ** [new Set] *)

Lemma same_value_zero_eq a b : same_value_zero a b = true → a = b.
Proof.
  destruct a, b; simpl; try done; intros H.
  - apply Bool.eqb_prop in H. now subst.
  - apply Z.eqb_eq in H. now subst.
  - apply String.eqb_eq in H. now subst.
Qed.

Lemma same_value_zero_refl a : is_primitive a = true → same_value_zero a a = true.
Proof.
  destruct a; simpl; try done; intros _.
  - apply Bool.eqb_reflx.
  - apply Z.eqb_refl.
  - apply String.eqb_refl.
Qed.

Lemma existsb_same_value_zero x seen :
  is_primitive x = true → existsb (same_value_zero x) seen = true ↔ x ∈ seen.
Proof.
  intros Hx. rewrite existsb_exists. split.
  - intros (y & Hy & E). apply same_value_zero_eq in E. subst y. now apply list_elem_of_In.
  - intros H. exists x. split; [now apply list_elem_of_In|now apply same_value_zero_refl].
Qed.

(** On primitives (strings in particular) the spread of the set has every
    value of the list that was not seen before, once. *)
Lemma set_spread_spec seen l :
  Forall (fun v => is_primitive v = true) l →
  NoDup (set_spread seen l) ∧
  ∀ x, x ∈ set_spread seen l ↔ x ∈ l ∧ x ∉ seen.
Proof.
  intros Hl. revert seen. induction Hl as [|v l Hv Hl IH]; intros seen; simpl.
  - split; [constructor|]. intros x. split; [by intros ?%elem_of_nil|by intros [?%elem_of_nil _]].
  - destruct (existsb (same_value_zero v) seen) eqn:E.
    + apply existsb_same_value_zero in E; [|done].
      destruct (IH seen) as [Hnd Hin]. split; [done|].
      intros x. rewrite Hin, elem_of_cons. split; [tauto|].
      intros [[->|Hx] Hns]; [contradiction|tauto].
    + assert (v ∉ seen) as Hvs.
      { intros Hin. apply existsb_same_value_zero in Hin; [congruence|done]. }
      destruct (IH (v :: seen)) as [Hnd Hin]. split.
      * constructor; [|done]. rewrite Hin, elem_of_cons. tauto.
      * intros x. rewrite !elem_of_cons, Hin, elem_of_cons. split.
        -- intros [->|[Hx Hns]]; [tauto|]. split; [tauto|]. intros ?. apply Hns. tauto.
        -- intros [[->|Hx] Hns]; [tauto|].
           destruct (same_value_zero x v) eqn:Exv.
           ++ left. now apply same_value_zero_eq.
           ++ right. split; [done|]. intros [->|?]; [|contradiction].
              rewrite same_value_zero_refl in Exv; [done|].
              rewrite Forall_forall in Hl. now apply Hl.
Qed.

Lemma dedupe_strings_NoDup (ms : list string) : NoDup (dedupe (VStr <$> ms)).
Proof.
  apply set_spread_spec. apply Forall_fmap, Forall_forall. now intros.
Qed.

Lemma dedupe_strings_elem_of (ms : list string) x :
  x ∈ dedupe (VStr <$> ms) ↔ x ∈ VStr <$> ms.
Proof.
  unfold dedupe.
  destruct (set_spread_spec [] (VStr <$> ms)) as [_ H].
  { apply Forall_fmap, Forall_forall. now intros. }
  rewrite H. split; [tauto|]. intros ?. split; [done|]. apply not_elem_of_nil.
Qed.

(** A list without repetitions is its own spread. *)
Lemma set_spread_NoDup seen l :
  Forall (fun v => is_primitive v = true) l →
  NoDup l → (∀ x, x ∈ l → x ∉ seen) → set_spread seen l = l.
Proof.
  intros Hl. revert seen. induction Hl as [|v l Hv _ IH]; intros seen Hnd Hs; simpl; [done|].
  apply NoDup_cons in Hnd as [Hvl Hnd].
  destruct (existsb (same_value_zero v) seen) eqn:E.
  - apply existsb_same_value_zero in E; [|done]. exfalso. eapply Hs; [|done]. left.
  - f_equal. apply IH; [done|]. intros x Hx [->|Hin]%elem_of_cons; [done|].
    eapply Hs; [|done]. now right.
Qed.

(** ** [updateManifest] on the parsed document *)

Lemma find_named_not_nullish type t r :
  find_named type (as_array t) = Ok r → nullish t (VArr []) = t.
Proof. destruct t; simpl; done. Qed.

(** A manifest in which [find] gets as far as an answer has a [Package]
    object with a [types] property. *)
Lemma manifest_shape manifest pkg t type r :
  get_prop manifest "Package" = Ok pkg →
  get_prop pkg "types" = Ok t →
  find_named type (as_array t) = Ok r →
  ∃ mps pps, manifest = VObj mps ∧ pkg = VObj pps ∧
             lookup_prop "Package" mps = Some (VObj pps) ∧
             lookup_prop "types" pps = Some t.
Proof.
  intros Hp Ht Hf.
  assert (t ≠ VUndefined) as Hne by (intros ->; simpl in Hf; done).
  destruct (get_prop_defined _ _ _ Ht Hne) as (pps & -> & Hpps).
  destruct (get_prop_defined _ _ _ Hp) as (mps & -> & Hmps); [done|].
  now exists mps, pps.
Qed.

Section UpdateManifestDoc.
Context (mps pps : list (string * value)) (t : value) (type : string).
Context (members : list value).
Hypothesis Hpackage : lookup_prop "Package" mps = Some (VObj pps).
Hypothesis Htypes : lookup_prop "types" pps = Some t.

Lemma flow_delete_found i eps :
  find_named type (as_array t) = Ok (Some i) →
  as_array t !! i = Some (VObj eps) →
  flow_delete.updateManifest_doc (VObj mps) members type
  = Ok (with_types mps pps (<[i := merged_entry eps members]> (as_array t))).
Proof.
  intros Hf Hi. unfold flow_delete.updateManifest_doc. simpl.
  rewrite Hpackage. simpl. rewrite Htypes. simpl.
  rewrite (find_named_not_nullish _ _ _ Hf), (store_same _ _ _ Htypes).
  rewrite Htypes. simpl. rewrite Hf. simpl. rewrite Hi. simpl. done.
Qed.

Lemma flowDelete_found i eps :
  find_named type (as_array t) = Ok (Some i) →
  as_array t !! i = Some (VObj eps) →
  flowDelete.updateManifest_doc (VObj mps) members type
  = Ok (with_types mps pps (<[i := merged_entry eps members]> (as_array t))).
Proof.
  intros Hf Hi. unfold flowDelete.updateManifest_doc. simpl.
  rewrite Hpackage. simpl. rewrite Htypes. simpl.
  rewrite Hf. simpl. rewrite Hi. simpl. done.
Qed.

Lemma flow_delete_appended :
  find_named type (as_array t) = Ok None →
  flow_delete.updateManifest_doc (VObj mps) members type
  = Ok (with_types mps pps
          (as_array t ++ [VObj [("members", VArr members); ("name", VStr type)]])).
Proof.
  intros Hf. unfold flow_delete.updateManifest_doc. simpl.
  rewrite Hpackage. simpl. rewrite Htypes. simpl.
  rewrite (find_named_not_nullish _ _ _ Hf), (store_same _ _ _ Htypes).
  rewrite Htypes. simpl. rewrite Hf. simpl. done.
Qed.

Lemma flowDelete_appended :
  find_named type (as_array t) = Ok None →
  flowDelete.updateManifest_doc (VObj mps) members type
  = Ok (with_types mps pps
          (as_array t ++ [VObj [("members", VArr members); ("name", VStr type)]])).
Proof.
  intros Hf. unfold flowDelete.updateManifest_doc. simpl.
  rewrite Hpackage. simpl. rewrite Htypes. simpl.
  rewrite Hf. simpl. done.
Qed.
End UpdateManifestDoc.

(** Reading the result back. *)
Lemma with_types_Package mps pps types :
  get_prop (with_types mps pps types) "Package"
  = Ok (VObj (store_prop "types" (VArr types) pps)).
Proof. unfold with_types. apply get_set_obj. Qed.

Lemma with_types_types pps types :
  get_prop (VObj (store_prop "types" (VArr types) pps)) "types" = Ok (VArr types).
Proof. apply get_set_obj. Qed.

Lemma set_spread_strings seen (ms : list string) :
  ∃ ms', set_spread seen (VStr <$> ms) = VStr <$> ms'.
Proof.
  revert seen. induction ms as [|m ms IH]; intros seen.
  - now exists [].
  - rewrite fmap_cons. cbn [set_spread].
    destruct (existsb (same_value_zero (VStr m)) seen).
    + apply IH.
    + destruct (IH (VStr m :: seen)) as [ms' ->]. now exists (m :: ms').
Qed.

(** [unique(newMembers)] for a list of strings. *)
Lemma dedupe_strings (ms : list string) :
  ∃ ms', dedupe (VStr <$> ms) = VStr <$> ms' ∧ NoDup ms' ∧ ∀ x, x ∈ ms' ↔ x ∈ ms.
Proof.
  destruct (set_spread_strings [] ms) as [ms' E]. exists ms'. split; [done|].
  assert (Inj (=) (=) VStr) as Hinj by (now intros ?? [= ->]).
  split.
  - eapply (NoDup_fmap VStr). fold (dedupe (VStr <$> ms)) in E. rewrite <- E.
    apply dedupe_strings_NoDup.
  - intros x. rewrite <- (list_elem_of_fmap_inj VStr ms' x), <- (list_elem_of_fmap_inj VStr ms x).
    fold (dedupe (VStr <$> ms)) in E. rewrite <- E. apply dedupe_strings_elem_of.
Qed.

(** C1, counterexample.  A manifest whose [Flow] entry has the members [A]
    and [C], merged with the new member [B]: the entry is left with [B]
    alone, and [A], which is in the union of the existing and the new
    members, is gone. *)
Lemma updateManifest_existing_members_dropped :
  let manifest :=
    example_manifest (VArr [example_type "ApexClass" ["Foo"; "Bar"];
                            example_type "Flow" ["A"; "C"]]) in
  let manifest' :=
    example_manifest (VArr [example_type "ApexClass" ["Foo"; "Bar"];
                            example_type "Flow" ["B"]]) in
  flow_delete.updateManifest_doc manifest [VStr "B"] "Flow" = Ok manifest' ∧
  flowDelete.updateManifest_doc manifest [VStr "B"] "Flow" = Ok manifest' ∧
  (e ← flow_delete.filterType manifest "Flow"; get_prop e "members")
  = Ok (VArr [VStr "A"; VStr "C"]) ∧
  (e ← flow_delete.filterType manifest' "Flow"; get_prop e "members")
  = Ok (VArr [VStr "B"]) ∧
  VStr "A" ∉ [VStr "B"].
Proof.
  repeat split; try reflexivity.
  intros [[=]|H%elem_of_nil]%elem_of_cons. done.
Qed.

(** C1, as amended.  In a manifest that has an entry named [type] (the one
    [find] returns), [updateManifest] of either script replaces the members
    of that entry with the new members without their repetitions:
    [members' = unique(newMembers)].  The existing members are not part of
    the result. *)
Theorem updateManifest_replaces_members manifest pkg t i (newMembers : list string) type :
  get_prop manifest "Package" = Ok pkg →
  get_prop pkg "types" = Ok t →
  find_named type (as_array t) = Ok (Some i) →
  ∃ manifest' pkg' types' entry' members',
    flow_delete.updateManifest_doc manifest (VStr <$> newMembers) type = Ok manifest' ∧
    flowDelete.updateManifest_doc manifest (VStr <$> newMembers) type = Ok manifest' ∧
    get_prop manifest' "Package" = Ok pkg' ∧
    get_prop pkg' "types" = Ok (VArr types') ∧
    find_named type types' = Ok (Some i) ∧
    types' !! i = Some entry' ∧
    get_prop entry' "members" = Ok (VArr (VStr <$> members')) ∧
    NoDup members' ∧
    ∀ x, x ∈ members' ↔ x ∈ newMembers.
Proof.
  intros Hp Ht Hf.
  destruct (manifest_shape _ _ _ _ _ Hp Ht Hf) as (mps & pps & -> & -> & Hmps & Hpps).
  destruct (find_named_Some _ _ _ Hf) as (eps & Hi & Hname).
  destruct (dedupe_strings newMembers) as (members' & Hd & Hnd & Hin).
  eexists _, _, _, _, members'.
  split; [eapply flow_delete_found; eauto|].
  split; [eapply flowDelete_found; eauto|].
  split; [apply with_types_Package|].
  split; [apply with_types_types|].
  split; [unfold merged_entry; rewrite find_named_insert; eauto|].
  split; [apply list_lookup_insert_eq; now apply lookup_lt_Some in Hi|].
  split; [unfold merged_entry; rewrite get_set_obj, Hd; done|].
  done.
Qed.

Lemma updateManifest_replaces_members_witness :
  ∃ manifest' pkg' types' entry' members',
    flow_delete.updateManifest_doc
      (example_manifest (VArr [example_type "ApexClass" ["Foo"; "Bar"];
                               example_type "Flow" ["A"; "C"]]))
      (VStr <$> ["B"; "C"; "B"]) "Flow" = Ok manifest' ∧
    flowDelete.updateManifest_doc
      (example_manifest (VArr [example_type "ApexClass" ["Foo"; "Bar"];
                               example_type "Flow" ["A"; "C"]]))
      (VStr <$> ["B"; "C"; "B"]) "Flow" = Ok manifest' ∧
    get_prop manifest' "Package" = Ok pkg' ∧
    get_prop pkg' "types" = Ok (VArr types') ∧
    find_named "Flow" types' = Ok (Some 1%nat) ∧
    types' !! 1%nat = Some entry' ∧
    get_prop entry' "members" = Ok (VArr (VStr <$> members')) ∧
    NoDup members' ∧
    ∀ x, x ∈ members' ↔ x ∈ ["B"; "C"; "B"].
Proof.
  eapply (updateManifest_replaces_members
            (example_manifest (VArr [example_type "ApexClass" ["Foo"; "Bar"];
                               example_type "Flow" ["A"; "C"]])));
    reflexivity.
Defined.

(** ** Two merges in a row *)

(** [Package.types] absent (or [null]): [src/flow-delete.js] starts from an
    empty list. *)
Lemma flow_delete_absent mps pps members type :
  lookup_prop "Package" mps = Some (VObj pps) →
  nullish (default VUndefined (lookup_prop "types" pps)) (VArr []) = VArr [] →
  flow_delete.updateManifest_doc (VObj mps) members type
  = Ok (with_types mps pps [VObj [("members", VArr members); ("name", VStr type)]]).
Proof.
  intros Hpackage Hn. unfold flow_delete.updateManifest_doc. simpl.
  rewrite Hpackage. simpl. rewrite Hn. simpl.
  rewrite lookup_store_eq. simpl. unfold with_types. now rewrite store_store.
Qed.

(** A merge that returns worked on a [Package] object. *)
Lemma flow_delete_Ok_inv manifest members type manifest' :
  flow_delete.updateManifest_doc manifest members type = Ok manifest' →
  ∃ mps pps, manifest = VObj mps ∧ lookup_prop "Package" mps = Some (VObj pps).
Proof.
  unfold flow_delete.updateManifest_doc.
  destruct manifest as [| | | | |?|mps]; simpl; try done.
  destruct (lookup_prop "Package" mps) as [pkg|] eqn:Hp; simpl; [|done].
  destruct pkg as [| | | | |?|pps]; simpl; try done.
  intros _. now exists mps, pps.
Qed.

Lemma flowDelete_Ok_inv manifest members type manifest' :
  flowDelete.updateManifest_doc manifest members type = Ok manifest' →
  ∃ mps pps t r, manifest = VObj mps ∧ lookup_prop "Package" mps = Some (VObj pps) ∧
                 lookup_prop "types" pps = Some t ∧ find_named type (as_array t) = Ok r.
Proof.
  unfold flowDelete.updateManifest_doc.
  destruct manifest as [| | | | |?|mps]; simpl; try done.
  destruct (lookup_prop "Package" mps) as [pkg|] eqn:Hp; simpl; [|done].
  destruct pkg as [| | | | |?|pps]; simpl; try done.
  destruct (lookup_prop "types" pps) as [t|] eqn:Ht; simpl; [|done].
  destruct (find_named type (as_array t)) as [r|] eqn:Hf; simpl; [|done].
  intros _. now exists mps, pps, t, r.
Qed.

(** The second merge finds the entry the first one wrote. *)
Lemma merge_again_found mps pps types i eps members type :
  find_named type types = Ok (Some i) →
  types !! i = Some (VObj eps) →
  let manifest' := with_types mps pps (<[i := merged_entry eps members]> types) in
  flow_delete.updateManifest_doc manifest' members type = Ok manifest' ∧
  flowDelete.updateManifest_doc manifest' members type = Ok manifest'.
Proof.
  intros Hf Hi manifest'.
  assert (with_types (store_prop "Package"
                        (VObj (store_prop "types" (VArr (<[i := merged_entry eps members]> types)) pps)) mps)
                     (store_prop "types" (VArr (<[i := merged_entry eps members]> types)) pps)
                     (<[i := merged_entry (store_prop "members" (VArr (dedupe members)) eps) members]>
                        (as_array (VArr (<[i := merged_entry eps members]> types))))
          = manifest') as Heq.
  { unfold manifest', with_types, merged_entry. simpl.
    now rewrite !store_store, list_insert_insert_eq. }
  split; rewrite <- Heq at 2.
  - apply flow_delete_found; try apply lookup_store_eq.
    + simpl. unfold merged_entry. now rewrite find_named_insert.
    + simpl. apply list_lookup_insert_eq. now apply lookup_lt_Some in Hi.
  - apply flowDelete_found; try apply lookup_store_eq.
    + simpl. unfold merged_entry. now rewrite find_named_insert.
    + simpl. apply list_lookup_insert_eq. now apply lookup_lt_Some in Hi.
Qed.

Lemma merge_again_appended mps pps types members type :
  find_named type types = Ok None →
  dedupe members = members →
  let manifest' :=
    with_types mps pps (types ++ [VObj [("members", VArr members); ("name", VStr type)]]) in
  flow_delete.updateManifest_doc manifest' members type = Ok manifest' ∧
  flowDelete.updateManifest_doc manifest' members type = Ok manifest'.
Proof.
  intros Hf Hd manifest'.
  set (entry := [("members", VArr members); ("name", VStr type)]) in *.
  assert (find_named type (types ++ [VObj entry]) = Ok (Some (length types))) as Hf'.
  { rewrite find_named_snoc by done. simpl. now rewrite String.eqb_refl. }
  assert (merged_entry entry members = VObj entry) as He.
  { unfold merged_entry, entry. simpl. now rewrite Hd. }
  assert ((types ++ [VObj entry]) !! length types = Some (VObj entry)) as Hi.
  { rewrite lookup_app_r by lia. now rewrite Nat.sub_diag. }
  assert (with_types (store_prop "Package"
                        (VObj (store_prop "types" (VArr (types ++ [VObj entry])) pps)) mps)
                     (store_prop "types" (VArr (types ++ [VObj entry])) pps)
                     (<[length types := merged_entry entry members]>
                        (as_array (VArr (types ++ [VObj entry]))))
          = manifest') as Heq.
  { unfold manifest', with_types. simpl.
    now rewrite He, !store_store, list_insert_id. }
  split; rewrite <- Heq at 2.
  - apply flow_delete_found; try apply lookup_store_eq; done.
  - apply flowDelete_found; try apply lookup_store_eq; done.
Qed.

Lemma nullish_cases t : nullish t (VArr []) = VArr [] ∨ nullish t (VArr []) = t.
Proof. destruct t; simpl; auto. Qed.

Lemma flow_delete_find_throws mps pps t members type e :
  lookup_prop "Package" mps = Some (VObj pps) →
  lookup_prop "types" pps = Some t →
  nullish t (VArr []) = t →
  find_named type (as_array t) = Throw e →
  flow_delete.updateManifest_doc (VObj mps) members type = Throw e.
Proof.
  intros Hpackage Htypes Hn Hf. unfold flow_delete.updateManifest_doc. simpl.
  rewrite Hpackage. simpl. rewrite Htypes. simpl.
  rewrite Hn, (store_same _ _ _ Htypes), Htypes. simpl. now rewrite Hf.
Qed.

Lemma has_entry_obj mps pps t type :
  lookup_prop "Package" mps = Some (VObj pps) →
  lookup_prop "types" pps = Some t →
  has_entry (VObj mps) type =
    match find_named type (as_array t) with Ok (Some _) => true | _ => false end.
Proof.
  intros Hpackage Htypes. unfold has_entry. simpl.
  rewrite Hpackage. simpl. now rewrite Htypes.
Qed.

Lemma has_entry_absent mps pps type :
  lookup_prop "Package" mps = Some (VObj pps) →
  nullish (default VUndefined (lookup_prop "types" pps)) (VArr []) = VArr [] →
  has_entry (VObj mps) type = false.
Proof.
  intros Hpackage Hn. unfold has_entry. simpl. rewrite Hpackage. simpl.
  destruct (lookup_prop "types" pps) as [[]|]; simplify_eq/=; done.
Qed.

(** C7, counterexample.  The [Flow] entry has the members [A] and [B]; the
    new members, [A] alone, are a subset of them.  The merge is not a
    no-op: it leaves the entry with [A] alone. *)
Lemma updateManifest_subset_not_noop :
  let manifest :=
    example_manifest (VArr [example_type "ApexClass" ["Foo"; "Bar"];
                            example_type "Flow" ["A"; "B"]]) in
  let manifest' :=
    example_manifest (VArr [example_type "ApexClass" ["Foo"; "Bar"];
                            example_type "Flow" ["A"]]) in
  (∀ x, x ∈ ["A"] → x ∈ ["A"; "B"]) ∧
  flow_delete.updateManifest_doc manifest [VStr "A"] "Flow" = Ok manifest' ∧
  flowDelete.updateManifest_doc manifest [VStr "A"] "Flow" = Ok manifest' ∧
  manifest' ≠ manifest.
Proof.
  repeat split; try reflexivity; try discriminate.
  intros x ->%list_elem_of_singleton. left.
Qed.

(** C7, as amended.  When the manifest already has the entry, or when the new
    members hold no repetition, a second [updateManifest] with the same
    new members changes nothing: it returns the manifest the first one
    returned.  This holds for either script and whichever of the two did
    the first merge. *)
Theorem updateManifest_twice manifest members type manifest' :
  flow_delete.updateManifest_doc manifest members type = Ok manifest' ∨
  flowDelete.updateManifest_doc manifest members type = Ok manifest' →
  has_entry manifest type = true ∨ dedupe members = members →
  flow_delete.updateManifest_doc manifest' members type = Ok manifest' ∧
  flowDelete.updateManifest_doc manifest' members type = Ok manifest'.
Proof.
  intros [H|H] Hcond.
  - destruct (flow_delete_Ok_inv _ _ _ _ H) as (mps & pps & -> & Hpackage).
    destruct (lookup_prop "types" pps) as [t|] eqn:Htypes.
    + destruct (find_named type (as_array t)) as [[i|]|e] eqn:Hf.
      * destruct (find_named_Some _ _ _ Hf) as (eps & Hi & _).
        rewrite (flow_delete_found _ _ _ _ _ Hpackage Htypes _ _ Hf Hi) in H.
        injection H as <-. now apply merge_again_found.
      * rewrite (flow_delete_appended _ _ _ _ _ Hpackage Htypes Hf) in H.
        injection H as <-.
        rewrite (has_entry_obj _ _ _ _ Hpackage Htypes), Hf in Hcond.
        destruct Hcond as [?|Hd]; [done|]. now apply merge_again_appended.
      * destruct (nullish_cases t) as [Hn|Hn].
        -- rewrite (flow_delete_absent mps pps) in H by (try rewrite Htypes; done).
           injection H as <-.
           rewrite (has_entry_absent mps pps) in Hcond by (try rewrite Htypes; done).
           destruct Hcond as [?|Hd]; [done|].
           now apply (merge_again_appended mps pps []).
        -- now rewrite (flow_delete_find_throws _ _ _ _ _ _ Hpackage Htypes Hn Hf) in H.
    + rewrite (flow_delete_absent mps pps) in H by (try rewrite Htypes; done).
      injection H as <-.
      rewrite (has_entry_absent mps pps) in Hcond by (try rewrite Htypes; done).
      destruct Hcond as [?|Hd]; [done|].
      now apply (merge_again_appended mps pps []).
  - destruct (flowDelete_Ok_inv _ _ _ _ H) as (mps & pps & t & r & -> & Hpackage & Htypes & Hf).
    destruct r as [i|].
    + destruct (find_named_Some _ _ _ Hf) as (eps & Hi & _).
      rewrite (flowDelete_found _ _ _ _ _ Hpackage Htypes _ _ Hf Hi) in H.
      injection H as <-. now apply merge_again_found.
    + rewrite (flowDelete_appended _ _ _ _ _ Hpackage Htypes Hf) in H.
      injection H as <-.
      rewrite (has_entry_obj _ _ _ _ Hpackage Htypes), Hf in Hcond.
      destruct Hcond as [?|Hd]; [done|]. now apply merge_again_appended.
Qed.

Lemma updateManifest_twice_witness :
  let manifest := example_manifest (example_type "ApexClass" ["Foo"; "Bar"]) in
  let manifest' :=
    example_manifest (VArr [example_type "ApexClass" ["Foo"; "Bar"];
                            example_type "FlowDefinition" ["FlowA"; "FlowB"]]) in
  flow_delete.updateManifest_doc manifest' (VStr <$> ["FlowA"; "FlowB"]) "FlowDefinition"
  = Ok manifest' ∧
  flowDelete.updateManifest_doc manifest' (VStr <$> ["FlowA"; "FlowB"]) "FlowDefinition"
  = Ok manifest'.
Proof.
  intros manifest manifest'.
  apply (updateManifest_twice manifest (VStr <$> ["FlowA"; "FlowB"]) "FlowDefinition" manifest').
  - left. reflexivity.
  - right. reflexivity.
Defined.

(** ** The entry that is appended *)

(** C5.  The branch of [updateManifest] that appends a new entry stores the
    new members as they come, repetitions included, where the other branch
    stores [[...new Set(members)]].  The destructive manifest lists two
    versions of one flow; [src/flow-delete.js] strips the versions, and the
    [FlowDefinition] entry it adds to a package manifest without one has the
    flow twice. *)
Lemma updateManifest_appended_members_repeat :
  let manifest := example_manifest (example_type "ApexClass" ["Foo"; "Bar"]) in
  let manifest' :=
    example_manifest (VArr [example_type "ApexClass" ["Foo"; "Bar"];
                            example_type "FlowDefinition" ["FlowA"; "FlowA"]]) in
  flow_delete.deletedFlows (example_manifest (example_type "Flow" ["FlowA-1"; "FlowA-2"]))
  = Ok (VStr <$> ["FlowA"; "FlowA"]) ∧
  flow_delete.updateManifest_doc manifest (VStr <$> ["FlowA"; "FlowA"]) "FlowDefinition"
  = Ok manifest' ∧
  flowDelete.updateManifest_doc manifest (VStr <$> ["FlowA"; "FlowA"]) "FlowDefinition"
  = Ok manifest' ∧
  (e ← flow_delete.filterType manifest' "FlowDefinition"; get_prop e "members")
  = Ok (VArr (VStr <$> ["FlowA"; "FlowA"])) ∧
  ¬ NoDup ["FlowA"; "FlowA"].
Proof.
  repeat split; try reflexivity.
  intros H. apply NoDup_cons in H as [H _]. apply H. left.
Qed.

(** ** The two scripts side by side *)

(** X8.  Where [Package.types] is there (neither [undefined] nor [null])
    the two [updateManifest] do the same. *)
Lemma updateManifest_doc_agree manifest pkg t members type :
  get_prop manifest "Package" = Ok pkg →
  get_prop pkg "types" = Ok t →
  t ≠ VUndefined → t ≠ VNull →
  flow_delete.updateManifest_doc manifest members type
  = flowDelete.updateManifest_doc manifest members type.
Proof.
  intros Hp Ht Hu Hn.
  destruct (get_prop_defined _ _ _ Ht Hu) as (pps & -> & Hpps).
  destruct (get_prop_defined _ _ _ Hp) as (mps & -> & Hmps); [done|].
  unfold flow_delete.updateManifest_doc, flowDelete.updateManifest_doc. simpl.
  rewrite Hmps. simpl. rewrite Hpps. simpl.
  assert (nullish t (VArr []) = t) as -> by (destruct t; done).
  rewrite (store_same _ _ _ Hpps), Hpps. done.
Qed.

(** C10.  A package manifest without any [types]: [src/flow-delete.js]
    starts from an empty list and adds the entry, [src/flowDelete.js] wraps
    [undefined] into a list and throws a [TypeError] in the callback of
    [find]. *)
Lemma updateManifest_without_types_differ :
  flow_delete.updateManifest_doc example_manifest_without_types [VStr "FlowA"] "FlowDefinition"
  = Ok (VObj [("?xml", VObj [("@_version", VStr "1.0"); ("@_encoding", VStr "UTF-8")]);
              ("Package",
               VObj [("version", VNum 60);
                     ("@_xmlns", VStr "http://soap.sforce.com/2006/04/metadata");
                     ("types", VArr [example_type "FlowDefinition" ["FlowA"]])])]) ∧
  flowDelete.updateManifest_doc example_manifest_without_types [VStr "FlowA"] "FlowDefinition"
  = Throw TypeError.
Proof. split; reflexivity. Qed.

(** ** [filterType] *)

(** [src/flow-delete.js]: whatever [filterType] returns has a list of
    members. *)
Lemma filterType_members_array manifest name entry :
  flow_delete.filterType manifest name = Ok entry →
  ∃ l, get_prop entry "members" = Ok (VArr l).
Proof.
  unfold flow_delete.filterType.
  destruct (get_prop manifest "Package") as [pkg|]; simpl; [|done].
  destruct (get_prop_opt pkg "types") as [t|]; simpl; [|done].
  destruct (truthy t); simpl; [|intros [= <-]; now exists []].
  destruct (find_named name (as_array t)) as [[i|]|] eqn:Hf; simpl; try done.
  - destruct (find_named_Some _ _ _ Hf) as (eps & -> & _). simpl.
    intros [= <-]. rewrite get_set_obj.
    destruct (default VUndefined (lookup_prop "members" eps)); simpl; eauto.
  - intros [= <-]. now exists [].
Qed.

(** [src/flow-delete.js]: without [types], and without an entry of that
    name, the result is the empty entry. *)
Lemma filterType_empty manifest pkg t name :
  get_prop manifest "Package" = Ok pkg →
  get_prop_opt pkg "types" = Ok t →
  truthy t = false ∨ find_named name (as_array t) = Ok None →
  flow_delete.filterType manifest name = Ok (VObj [("members", VArr []); ("name", VStr name)]).
Proof.
  intros Hp Ht H. unfold flow_delete.filterType. rewrite Hp. simpl. rewrite Ht. simpl.
  destruct (truthy t); simpl; [|done].
  destruct H as [?| ->]; done.
Qed.

(** X4.  [src/flow-delete.js]: an entry with the one member [m] as a scalar
    and the same entry with the list [[m]] give the same result. *)
Lemma filterType_scalar_singleton mps pps types i eps m name :
  isArray m = false →
  flow_delete.filterType
    (with_types mps pps (<[i := VObj (store_prop "members" m eps)]> types)) name
  = flow_delete.filterType
      (with_types mps pps (<[i := VObj (store_prop "members" (VArr [m]) eps)]> types)) name.
Proof.
  intros Hm. unfold flow_delete.filterType.
  rewrite !with_types_Package. simpl. rewrite !lookup_store_eq. simpl.
  destruct (decide (i < length types)%nat) as [Hlt|Hge].
  2: { rewrite !list_insert_ge by lia. done. }
  assert (find_named name (<[i := VObj (store_prop "members" m eps)]> types)
          = find_named name (<[i := VObj (store_prop "members" (VArr [m]) eps)]> types)) as Hfind.
  { apply find_named_ext, Forall2_same_length_lookup.
    split; [now rewrite !length_insert|]. intros j a b Ha Hb.
    destruct (decide (i = j)) as [->|Hne].
    - rewrite list_lookup_insert_eq in Ha, Hb by done.
      injection Ha as <-. injection Hb as <-. simpl. now rewrite !lookup_store_ne.
    - rewrite list_lookup_insert_ne in Ha, Hb by done. congruence. }
  rewrite <- Hfind.
  destruct (find_named name (<[i := VObj (store_prop "members" m eps)]> types))
    as [[j|]|] eqn:Hf; simpl; try done.
  destruct (decide (i = j)) as [->|Hne].
  - rewrite !list_lookup_insert_eq by done. simpl.
    rewrite !lookup_store_eq. simpl. rewrite Hm, !store_store. done.
  - rewrite !list_lookup_insert_ne by done. done.
Qed.

(** C8.  [src/flowDelete.js]: [filterType] returns the entry as the parser
    left it, so an entry with one member has a string for [members], and
    an entry with the same member in a list has a list; [src/flow-delete.js]
    returns the list for both.  On a destructive manifest with one flow the
    top level of [src/flowDelete.js] then calls [forEach] on that string
    and throws, where [src/flow-delete.js] runs to its end. *)
Lemma filterType_flowDelete_scalar_members :
  let scalar := example_manifest (example_type_scalar "Flow" "FlowA") in
  let singleton := example_manifest (example_type "Flow" ["FlowA"]) in
  flowDelete.filterType scalar "Flow" = Ok (example_type_scalar "Flow" "FlowA") ∧
  flowDelete.filterType singleton "Flow" = Ok (example_type "Flow" ["FlowA"]) ∧
  example_type_scalar "Flow" "FlowA" ≠ example_type "Flow" ["FlowA"] ∧
  flow_delete.filterType scalar "Flow" = Ok (example_type "Flow" ["FlowA"]) ∧
  flow_delete.filterType singleton "Flow" = Ok (example_type "Flow" ["FlowA"]) ∧
  flowDelete.main example_run_single_flow "package.xml" "destructiveChanges.xml" example_world
  = (Throw TypeError, example_world) ∧
  (flow_delete.main example_run_single_flow "package.xml" "destructiveChanges.xml"
     example_world).1 = Ok tt.
Proof. repeat split; try discriminate; vm_compute; reflexivity. Qed.

(** ** Version suffixes *)

(** [src/flow-delete.js]: a name without a hyphen, qualified with a
    version, is stripped back to the name. *)
Lemma split_first_suffix name version :
  (∀ c, c ∈ list_ascii_of_string name → c ≠ hyphen) →
  split_first (name +:+ "-" +:+ version) = name.
Proof.
  induction name as [|c name IH]; intros Hc; simpl; [done|].
  destruct (Ascii.eqb c hyphen) eqn:E.
  - apply Ascii.eqb_eq in E. exfalso. apply (Hc c); [left|done].
  - f_equal. apply IH. intros c' Hc'. apply Hc. simpl. now right.
Qed.

(** [src/flow-delete.js]: the delete list is the list of the members of
    the [Flow] entry, each cut at its first hyphen. *)
Lemma deletedFlows_strips destructiveXml entry (members : list string) :
  flow_delete.filterType destructiveXml "Flow" = Ok entry →
  get_prop entry "members" = Ok (VArr (VStr <$> members)) →
  flow_delete.deletedFlows destructiveXml = Ok (VStr <$> (split_first <$> members)).
Proof.
  intros Hf Hm. unfold flow_delete.deletedFlows. rewrite Hf. simpl. rewrite Hm. simpl.
  clear. induction members as [|m members IH]; [done|].
  rewrite !fmap_cons. cbn [mapM]. simpl. now rewrite IH.
Qed.

Example deletedFlows_MyFlow_3 :
  flow_delete.deletedFlows (example_manifest (example_type_scalar "Flow" "MyFlow-3"))
  = Ok [VStr "MyFlow"].
Proof. reflexivity. Qed.

(** C2.  [src/flowDelete.js] takes the members of the destructive manifest
    as they are: with version-qualified names it retrieves and queries
    [MyFlow-3] and [Other-1].  [src/flow-delete.js] does strip, keeping what
    comes before the first hyphen: of [My-Flow-3] it keeps [My] and queries
    that. *)
Lemma version_suffix_kept_or_cut_short :
  let legacy := flowDelete.main example_run_flowDelete "package.xml" "destructiveChanges.xml"
                  example_world in
  let current := flow_delete.main example_run_flow_delete "package.xml" "destructiveChanges.xml"
                   example_world in
  flowDelete.deletedFlows (example_manifest (example_type "Flow" ["MyFlow-3"; "Other-1"]))
  = Ok (VArr (VStr <$> ["MyFlow-3"; "Other-1"])) ∧
  legacy.1 = Ok tt ∧
  requests legacy.2
  = [("sf", ["project"; "retrieve"; "start";
             "--metadata"; "flow:MyFlow-3"; "--metadata"; "flow:Other-1"]);
     ("sf", query_args (soql "'MyFlow-3','Other-1'"))] ∧
  flow_delete.deletedFlows (example_manifest (example_type_scalar "Flow" "My-Flow-3"))
  = Ok [VStr "My"] ∧
  current.1 = Ok tt ∧
  requests current.2 = [("sf", query_args (soql "'My'"))].
Proof. repeat split; vm_compute; reflexivity. Qed.

(** ** Failures of [updateManifest] *)

(** C9, counterexample.  The [types] of the destructive manifest is a bare
    text instead of a type entry.  [updateManifest] does not fail: it keeps
    the text, appends the new entry after it and writes the document. *)
Lemma updateManifest_malformed_written :
  let run := flow_delete.updateManifest example_run_malformed "destructiveChanges.xml"
               [VStr "FlowA-1"] "Flow" example_world in
  let legacy := flowDelete.updateManifest example_run_malformed "destructiveChanges.xml"
                  [VStr "FlowA-1"] "Flow" example_world in
  run.1 = Ok tt ∧
  files run.2 !! "destructiveChanges.xml"
  = Some (render (example_manifest (VArr [VStr "junk"; example_type "Flow" ["FlowA-1"]]))) ∧
  legacy = run.
Proof. repeat split; vm_compute; reflexivity. Qed.

(** C9, as amended.  A document without a [Package] root makes
    [updateManifest] of either script throw, before [writeFile] is reached:
    no file has changed.  The exception is the [TypeError] of the property
    access on [undefined]; the scripts define no error class of their
    own. *)
Theorem updateManifest_without_Package_throws ext w path members type data doc :
  files w !! path = Some data →
  xml_parse ext data = Ok doc →
  get_prop doc "Package" = Ok VUndefined →
  flow_delete.updateManifest ext path members type w = (Throw TypeError, w) ∧
  flowDelete.updateManifest ext path members type w = (Throw TypeError, w).
Proof.
  intros Hfile Hparse Hpkg.
  unfold flow_delete.updateManifest, flowDelete.updateManifest, mbind, M_bind,
    readFile, parse, lift.
  rewrite Hfile, Hparse.
  unfold flow_delete.updateManifest_doc, flowDelete.updateManifest_doc.
  rewrite Hpkg. simpl. done.
Qed.

Lemma updateManifest_without_Package_throws_witness :
  let ext := example_collaborators [("<destructive/>", VObj [("Bundle", VStr "")])] [] "" [] in
  flow_delete.updateManifest ext "destructiveChanges.xml" [VStr "FlowA-1"] "Flow" example_world
  = (Throw TypeError, example_world) ∧
  flowDelete.updateManifest ext "destructiveChanges.xml" [VStr "FlowA-1"] "Flow" example_world
  = (Throw TypeError, example_world).
Proof.
  intros ext.
  apply (updateManifest_without_Package_throws ext example_world "destructiveChanges.xml"
           [VStr "FlowA-1"] "Flow" "<destructive/>" (VObj [("Bundle", VStr "")]));
    reflexivity.
Defined.

(** ** The version resolver *)

(** C6, counterexample.  [fetchFlowVersions] on the empty list spawns the
    query all the same, with nothing between the parentheses of [IN]. *)
Lemma fetchFlowVersions_empty_list_spawns :
  let run := fetchFlowVersions example_run_no_flows [] example_world in
  requests example_world = [] ∧
  requests run.2 = [("sf", query_args (soql ""))].
Proof. split; reflexivity. Qed.

(** C6, as amended.  [fetchFlowVersions] has no early return: on the empty
    list it issues one request, for the query with an empty [IN ()].  The
    empty case is dealt with by the caller: when the delete list is empty,
    the top level of either script calls neither [fetchFlowVersions] nor
    anything else but [console.log]; no request is issued and no file is
    written. *)
Theorem fetchFlowVersions_empty_list
    ext w packagePath destructivePath d p destructiveXml manifest existing existing' deleted :
  files w !! destructivePath = Some d →
  xml_parse ext d = Ok destructiveXml →
  files w !! packagePath = Some p →
  xml_parse ext p = Ok manifest →
  flow_delete.existingDefinitions manifest = Ok existing →
  flow_delete.deletedFlows destructiveXml = Ok [] →
  flowDelete.existingDefinitions manifest = Ok existing' →
  flowDelete.deletedFlows destructiveXml = Ok deleted →
  flowDelete.length_positive deleted = Ok false →
  requests (fetchFlowVersions ext [] w).2 = requests w ++ [("sf", query_args (soql ""))] ∧
  flow_delete.main ext packagePath destructivePath w
  = (Ok tt, World (files w) (requests w)
                  (console w ++ ["Destructive manifest does not contain flows"])) ∧
  flowDelete.main ext packagePath destructivePath w
  = (Ok tt, World (files w) (requests w)
                  (console w ++ ["Destructive manifest does not contain flows"])).
Proof.
  intros Hd Hdp Hp Hpp He Hdel He' Hdel' Hlen. split; [|split].
  - unfold fetchFlowVersions, spawnSync, lift, mbind, M_bind.
    destruct (run_process ext "sf" _ (files w)) as [fs output]. reflexivity.
  - unfold flow_delete.main, mbind, M_bind, readFile, parse, lift.
    rewrite Hd, Hdp, Hp, Hpp, He, Hdel. reflexivity.
  - unfold flowDelete.main, mbind, M_bind, readFile, parse, lift.
    rewrite Hd, Hdp, Hp, Hpp, He', Hdel', Hlen. reflexivity.
Qed.

Lemma fetchFlowVersions_empty_list_witness :
  requests (fetchFlowVersions example_run_no_flows [] example_world).2
  = requests example_world ++ [("sf", query_args (soql ""))] ∧
  flow_delete.main example_run_no_flows "package.xml" "destructiveChanges.xml" example_world
  = (Ok tt, World (files example_world) (requests example_world)
                  (console example_world ++ ["Destructive manifest does not contain flows"])) ∧
  flowDelete.main example_run_no_flows "package.xml" "destructiveChanges.xml" example_world
  = (Ok tt, World (files example_world) (requests example_world)
                  (console example_world ++ ["Destructive manifest does not contain flows"])).
Proof.
  apply (fetchFlowVersions_empty_list example_run_no_flows example_world
           "package.xml" "destructiveChanges.xml" "<destructive/>" "<package/>"
           (example_manifest (example_type_scalar "ApexClass" "Old"))
           (example_manifest (example_type "ApexClass" ["Foo"; "Bar"]))
           (VArr []) (VArr []) (VArr []));
    reflexivity.
Defined.

Lemma format_version_encodes r rv :
  encodes r rv → format_version rv = Ok (VStr (deletable r)).
Proof.
  intros (Hname & Hversion & _). unfold format_version.
  destruct (get_prop rv "Definition") as [d|]; simpl in *; [|done].
  rewrite Hname. simpl. rewrite Hversion. done.
Qed.

Lemma map_format_version records rvs :
  Forall2 encodes records rvs →
  mapM format_version rvs = Ok (VStr <$> (deletable <$> records)).
Proof.
  induction 1 as [|r rv records rvs Hr _ IH]; [done|].
  cbn [mapM]. rewrite (format_version_encodes _ _ Hr). simpl. rewrite IH. done.
Qed.





(** ** Deactivation *)

Lemma forEach_app {A} (f : A → M unit) l1 l2 w :
  forEach f (l1 ++ l2) w =
    match forEach f l1 w with
    | (Ok _, w') => forEach f l2 w'
    | (Throw e, w') => (Throw e, w')
    end.
Proof.
  revert w. induction l1 as [|x l1 IH]; intros w; simpl; [done|].
  unfold mbind, M_bind. destruct (f x w) as [[[]|e] w']; [apply IH|done].
Qed.



Lemma deactivateFlows_forEach ext flows w :
  flow_delete.deactivateFlows ext flows w = forEach (flow_delete.deactivateFlow ext) flows w.
Proof. reflexivity. Qed.





(** ** A whole run *)

(** [src/flow-delete.js] on a destructive manifest with the flows [FlowA],
    [FlowB] and [FlowC], a package manifest without [FlowDefinition], and a
    remote that has version 2 of [FlowA] and versions 1 and 2 of [FlowB]:
    the three definitions are created inactive, the package manifest gains
    the three names, and the destructive manifest lists the three versions
    that exist. *)
Example main_scenario :
  let run := flow_delete.main example_run_versions "package.xml" "destructiveChanges.xml"
               example_world in
  run.1 = Ok tt ∧
  requests run.2 = [("sf", query_args (soql "'FlowA','FlowB','FlowC'"))] ∧
  console run.2 = ["FlowA - deactivated"; "FlowB - deactivated"; "FlowC - deactivated"] ∧
  files run.2 !! "package.xml"
  = Some (render (example_manifest
                    (VArr [example_type "ApexClass" ["Foo"; "Bar"];
                           example_type "FlowDefinition" ["FlowA"; "FlowB"; "FlowC"]]))) ∧
  files run.2 !! "destructiveChanges.xml"
  = Some (render (example_manifest
                    (VArr [example_type "Flow" ["FlowA-2"; "FlowB-1"; "FlowB-2"]]))) ∧
  ∀ flow, flow ∈ ["FlowA"; "FlowB"; "FlowC"] →
          files run.2 !! flow_delete.definition_path (VStr flow)
          = Some (render flow_delete.createFlowDefinition).
Proof.
  repeat split; try (vm_compute; reflexivity).
  intros flow Hflow. repeat (apply elem_of_cons in Hflow as [->|Hflow]);
    [vm_compute; reflexivity..|now apply elem_of_nil in Hflow].
Qed.

(** * Further properties *)

(** ** [filterType] *)

Lemma lookup_prop_parsed k ps v :
  forallb (fun p => match p with (_, x) => parsed x end) ps = true →
  lookup_prop k ps = Some v → parsed v = true.
Proof.
  induction ps as [|[k' v'] ps IH]; simpl; [done|].
  intros [Hv Hps]%andb_prop. destruct (String.eqb k' k); [now intros [= <-]|now apply IH].
Qed.

Lemma get_prop_parsed o k :
  parsed o = true →
  ∃ v, get_prop o k = Ok v ∧ (v = VUndefined ∨ parsed v = true).
Proof.
  destruct o; simpl; try done; eauto.
  intros Hps. destruct (lookup_prop k props) as [v|] eqn:Hk; simpl; eauto.
  exists v. split; [done|]. right. eapply lookup_prop_parsed; eauto.
Qed.

Lemma find_named_parsed name arr :
  forallb parsed arr = true → ∃ r, find_named name arr = Ok r.
Proof.
  induction arr as [|e arr IH]; simpl; [eauto|].
  intros [He Harr]%andb_prop.
  destruct (get_prop_parsed e "name" He) as (n & -> & _). simpl.
  destruct (strict_eq_str n name); [eauto|].
  destruct (IH Harr) as [r ->]. simpl. eauto.
Qed.

Lemma as_array_parsed t : parsed t = true → forallb parsed (as_array t) = true.
Proof. destruct t; simpl; try done. now intros ->. Qed.

Lemma truthy_parsed_or_undefined t :
  truthy t = true → t = VUndefined ∨ parsed t = true → parsed t = true.
Proof. intros Ht [->|?]; done. Qed.

(** X1.  [src/flow-delete.js]: whatever [filterType] returns carries the
    name that was asked for and a list of members. *)
Theorem filterType_entry manifest name entry :
  flow_delete.filterType manifest name = Ok entry →
  get_prop entry "name" = Ok (VStr name) ∧
  ∃ members, get_prop entry "members" = Ok (VArr members).
Proof.
  unfold flow_delete.filterType.
  destruct (get_prop manifest "Package") as [pkg|]; simpl; [|done].
  destruct (get_prop_opt pkg "types") as [t|]; simpl; [|done].
  destruct (truthy t); simpl; [|intros [= <-]; split; [done|now exists []]].
  destruct (find_named name (as_array t)) as [[i|]|] eqn:Hf; simpl; try done.
  - destruct (find_named_Some _ _ _ Hf) as (eps & -> & Hname). simpl.
    intros [= <-]. split.
    + simpl. rewrite lookup_store_ne by done. now rewrite Hname.
    + rewrite get_set_obj.
      destruct (default VUndefined (lookup_prop "members" eps)); simpl; eauto.
  - intros [= <-]. split; [done|now exists []].
Qed.

Lemma filterType_entry_witness :
  get_prop (example_type "Flow" ["FlowA"]) "name" = Ok (VStr "Flow") ∧
  ∃ members, get_prop (example_type "Flow" ["FlowA"]) "members" = Ok (VArr members).
Proof.
  apply (filterType_entry (example_manifest (example_type_scalar "Flow" "FlowA")) "Flow").
  reflexivity.
Defined.

(** X2.  On a document as the parser returns it (no [undefined] and no
    [null] inside), [filterType] of either script returns: it throws on no
    shape of [Package], of [types] or of the entries. *)
Theorem filterType_returns manifest name :
  parsed manifest = true →
  (∃ entry, flow_delete.filterType manifest name = Ok entry) ∧
  (∃ entry, flowDelete.filterType manifest name = Ok entry).
Proof.
  intros Hm. unfold flow_delete.filterType, flowDelete.filterType.
  destruct (get_prop_parsed manifest "Package" Hm) as (pkg & -> & Hpkg). simpl.
  assert (∃ t, get_prop_opt pkg "types" = Ok t ∧ (t = VUndefined ∨ parsed t = true))
    as (t & -> & Ht).
  { destruct Hpkg as [->|Hpkg]; [simpl; eauto|].
    destruct (get_prop_parsed pkg "types" Hpkg) as (t & Hget & Ht).
    exists t. split; [|done]. destruct pkg; simpl in *; done. }
  simpl. destruct (truthy t) eqn:Htruthy; simpl; [|eauto].
  pose proof (truthy_parsed_or_undefined t Htruthy Ht) as Hparsed.
  destruct (find_named_parsed name _ (as_array_parsed t Hparsed)) as [r Hf].
  rewrite Hf. simpl. destruct r as [i|]; simpl; [|eauto].
  destruct (find_named_Some _ _ _ Hf) as (eps & -> & _). simpl. eauto.
Qed.

Lemma filterType_returns_witness :
  (∃ entry, flow_delete.filterType (example_manifest (VStr "junk")) "Flow" = Ok entry) ∧
  (∃ entry, flowDelete.filterType (example_manifest (VStr "junk")) "Flow" = Ok entry).
Proof. apply filterType_returns. reflexivity. Defined.

(** X3.  A manifest without [Package], without [types] (or with an empty
    [types] element), or without an entry of the name: [filterType] of
    either script returns the empty entry of that name. *)
Theorem filterType_without_entry manifest pkg t name :
  get_prop manifest "Package" = Ok pkg →
  get_prop_opt pkg "types" = Ok t →
  truthy t = false ∨ find_named name (as_array t) = Ok None →
  flow_delete.filterType manifest name = Ok (VObj [("members", VArr []); ("name", VStr name)]) ∧
  flowDelete.filterType manifest name = Ok (VObj [("members", VArr []); ("name", VStr name)]).
Proof.
  intros Hp Ht H. unfold flow_delete.filterType, flowDelete.filterType.
  rewrite Hp. simpl. rewrite Ht. simpl.
  destruct (truthy t); simpl; [|done].
  destruct H as [?| ->]; done.
Qed.

Lemma filterType_without_entry_witness :
  flow_delete.filterType example_manifest_without_types "Flow"
  = Ok (VObj [("members", VArr []); ("name", VStr "Flow")]) ∧
  flowDelete.filterType example_manifest_without_types "Flow"
  = Ok (VObj [("members", VArr []); ("name", VStr "Flow")]).
Proof.
  eapply (filterType_without_entry example_manifest_without_types); try reflexivity.
  left. reflexivity.
Defined.

Lemma filterType_scalar_singleton_witness :
  flow_delete.filterType
    (with_types [("Package", VObj [])] []
       (<[0%nat := VObj (store_prop "members" (VStr "FlowA") [("name", VStr "Flow")])]>
          [VObj [("name", VStr "Flow")]])) "Flow"
  = flow_delete.filterType
      (with_types [("Package", VObj [])] []
         (<[0%nat := VObj (store_prop "members" (VArr [VStr "FlowA"]) [("name", VStr "Flow")])]>
            [VObj [("name", VStr "Flow")]])) "Flow".
Proof. apply filterType_scalar_singleton. reflexivity. Defined.

(** ** [updateManifest] *)

(** The two ways a merge returns: the entry was found and its members
    replaced, or there was none and one was appended.  [old] is the list of
    types the merge works on. *)
Lemma updateManifest_doc_cases manifest members type manifest' :
  flow_delete.updateManifest_doc manifest members type = Ok manifest' ∨
  flowDelete.updateManifest_doc manifest members type = Ok manifest' →
  ∃ mps pps,
    manifest = VObj mps ∧ lookup_prop "Package" mps = Some (VObj pps) ∧
    let old := as_array (nullish (default VUndefined (lookup_prop "types" pps)) (VArr [])) in
    (∃ i eps, find_named type old = Ok (Some i) ∧ old !! i = Some (VObj eps) ∧
              manifest' = with_types mps pps (<[i := merged_entry eps members]> old)) ∨
    (find_named type old = Ok None ∧
     manifest' = with_types mps pps
                   (old ++ [VObj [("members", VArr members); ("name", VStr type)]])).
Proof.
  intros [H|H].
  - destruct (flow_delete_Ok_inv _ _ _ _ H) as (mps & pps & -> & Hpackage).
    exists mps, pps. split; [done|]. split; [done|].
    destruct (lookup_prop "types" pps) as [t|] eqn:Htypes; simpl.
    + destruct (nullish_cases t) as [Hn|Hn]; rewrite Hn.
      * rewrite (flow_delete_absent mps pps) in H by (try rewrite Htypes; done).
        injection H as <-. now right.
      * destruct (find_named type (as_array t)) as [[i|]|e] eqn:Hf.
        -- destruct (find_named_Some _ _ _ Hf) as (eps & Hi & _).
           rewrite (flow_delete_found _ _ _ _ _ Hpackage Htypes _ _ Hf Hi) in H.
           injection H as <-. left. eauto.
        -- rewrite (flow_delete_appended _ _ _ _ _ Hpackage Htypes Hf) in H.
           injection H as <-. now right.
        -- now rewrite (flow_delete_find_throws _ _ _ _ _ _ Hpackage Htypes Hn Hf) in H.
    + rewrite (flow_delete_absent mps pps) in H by (try rewrite Htypes; done).
      injection H as <-. now right.
  - destruct (flowDelete_Ok_inv _ _ _ _ H) as (mps & pps & t & r & -> & Hpackage & Htypes & Hf).
    exists mps, pps. split; [done|]. split; [done|].
    rewrite Htypes. simpl. rewrite (find_named_not_nullish _ _ _ Hf).
    destruct r as [i|].
    + destruct (find_named_Some _ _ _ Hf) as (eps & Hi & _).
      rewrite (flowDelete_found _ _ _ _ _ Hpackage Htypes _ _ Hf Hi) in H.
      injection H as <-. left. eauto.
    + rewrite (flowDelete_appended _ _ _ _ _ Hpackage Htypes Hf) in H.
      injection H as <-. now right.
Qed.

(** X5.  A merge that returns changes [Package.types] and nothing else:
    every other property of the document (the XML declaration) and of
    [Package] (the version, the namespace attribute) reads as before. *)
Theorem updateManifest_doc_keeps_rest manifest members type manifest' :
  flow_delete.updateManifest_doc manifest members type = Ok manifest' ∨
  flowDelete.updateManifest_doc manifest members type = Ok manifest' →
  (∀ k, k ≠ "Package" → get_prop manifest' k = get_prop manifest k) ∧
  ∃ pkg pkg',
    get_prop manifest "Package" = Ok pkg ∧
    get_prop manifest' "Package" = Ok pkg' ∧
    ∀ k, k ≠ "types" → get_prop pkg' k = get_prop pkg k.
Proof.
  intros H.
  destruct (updateManifest_doc_cases _ _ _ _ H) as (mps & pps & -> & Hpackage & Hcases).
  assert (∃ new, manifest' = with_types mps pps new) as [new ->].
  { destruct Hcases as [(i & eps & _ & _ & ->)|[_ ->]]; eauto. }
  split.
  - intros k Hk. unfold with_types. simpl. now rewrite lookup_store_ne.
  - eexists _, _. split; [simpl; now rewrite Hpackage|].
    split; [apply with_types_Package|].
    intros k Hk. simpl. now rewrite lookup_store_ne.
Qed.

Lemma updateManifest_doc_keeps_rest_witness :
  let manifest := example_manifest (example_type "ApexClass" ["Foo"; "Bar"]) in
  let manifest' :=
    example_manifest (VArr [example_type "ApexClass" ["Foo"; "Bar"];
                            example_type "FlowDefinition" ["FlowA"]]) in
  (∀ k, k ≠ "Package" → get_prop manifest' k = get_prop manifest k) ∧
  ∃ pkg pkg',
    get_prop manifest "Package" = Ok pkg ∧
    get_prop manifest' "Package" = Ok pkg' ∧
    ∀ k, k ≠ "types" → get_prop pkg' k = get_prop pkg k.
Proof.
  intros manifest manifest'.
  apply (updateManifest_doc_keeps_rest manifest [VStr "FlowA"] "FlowDefinition" manifest').
  left. reflexivity.
Defined.

(** X6.  What a merge that returns does to the list of types.  With an
    entry of the name: the list keeps its length, every other entry is the
    same at the same place, and the entry keeps every property but
    [members], which are the new members without repetitions.  Without one:
    the list is the old one (a single [types] object counting as a list of
    one) with the new entry after it, its members as they were passed. *)
Theorem updateManifest_doc_entries manifest members type manifest' :
  flow_delete.updateManifest_doc manifest members type = Ok manifest' ∨
  flowDelete.updateManifest_doc manifest members type = Ok manifest' →
  ∃ pkg t pkg' new,
    get_prop manifest "Package" = Ok pkg ∧
    get_prop pkg "types" = Ok t ∧
    get_prop manifest' "Package" = Ok pkg' ∧
    get_prop pkg' "types" = Ok (VArr new) ∧
    let old := as_array (nullish t (VArr [])) in
    match find_named type old with
    | Ok (Some i) =>
        length new = length old ∧
        (∀ j, j ≠ i → new !! j = old !! j) ∧
        ∃ e e', old !! i = Some e ∧ new !! i = Some e' ∧
                get_prop e' "members" = Ok (VArr (dedupe members)) ∧
                ∀ k, k ≠ "members" → get_prop e' k = get_prop e k
    | Ok None => new = old ++ [VObj [("members", VArr members); ("name", VStr type)]]
    | Throw _ => False
    end.
Proof.
  intros H.
  destruct (updateManifest_doc_cases _ _ _ _ H) as (mps & pps & -> & Hpackage & Hcases).
  exists (VObj pps), (default VUndefined (lookup_prop "types" pps)).
  cbv zeta in Hcases.
  set (old := as_array (nullish (default VUndefined (lookup_prop "types" pps)) (VArr []))) in *.
  destruct Hcases as [(i & eps & Hf & Hi & ->)|[Hf ->]].
  - eexists _, _. split; [simpl; now rewrite Hpackage|]. split; [done|].
    split; [apply with_types_Package|]. split; [apply with_types_types|].
    cbv zeta. fold old. rewrite Hf.
    split; [apply length_insert|].
    split; [intros j Hj; now apply list_lookup_insert_ne|].
    exists (VObj eps), (merged_entry eps members).
    split; [done|].
    split; [apply list_lookup_insert_eq; now apply lookup_lt_Some in Hi|].
    split; [apply get_set_obj|].
    intros k Hk. unfold merged_entry. simpl. now rewrite lookup_store_ne.
  - eexists _, _. split; [simpl; now rewrite Hpackage|]. split; [done|].
    split; [apply with_types_Package|]. split; [apply with_types_types|].
    cbv zeta. fold old. now rewrite Hf.
Qed.

Lemma updateManifest_doc_entries_witness :
  let manifest := example_manifest (example_type "ApexClass" ["Foo"; "Bar"]) in
  let manifest' :=
    example_manifest (VArr [example_type "ApexClass" ["Foo"; "Bar"];
                            example_type "FlowDefinition" ["FlowA"; "FlowA"]]) in
  ∃ pkg t pkg' new,
    get_prop manifest "Package" = Ok pkg ∧
    get_prop pkg "types" = Ok t ∧
    get_prop manifest' "Package" = Ok pkg' ∧
    get_prop pkg' "types" = Ok (VArr new) ∧
    let old := as_array (nullish t (VArr [])) in
    match find_named "FlowDefinition" old with
    | Ok (Some i) =>
        length new = length old ∧
        (∀ j, j ≠ i → new !! j = old !! j) ∧
        ∃ e e', old !! i = Some e ∧ new !! i = Some e' ∧
                get_prop e' "members" = Ok (VArr (dedupe (VStr <$> ["FlowA"; "FlowA"]))) ∧
                ∀ k, k ≠ "members" → get_prop e' k = get_prop e k
    | Ok None =>
        new = old ++ [VObj [("members", VArr (VStr <$> ["FlowA"; "FlowA"]));
                            ("name", VStr "FlowDefinition")]]
    | Throw _ => False
    end.
Proof.
  intros manifest manifest'.
  apply (updateManifest_doc_entries manifest (VStr <$> ["FlowA"; "FlowA"]) "FlowDefinition"
           manifest').
  left. reflexivity.
Defined.

Lemma updateManifest_doc_agree_witness :
  flow_delete.updateManifest_doc
    (example_manifest (example_type "ApexClass" ["Foo"; "Bar"])) [VStr "FlowA"] "FlowDefinition"
  = flowDelete.updateManifest_doc
      (example_manifest (example_type "ApexClass" ["Foo"; "Bar"])) [VStr "FlowA"] "FlowDefinition".
Proof.
  eapply (updateManifest_doc_agree (example_manifest (example_type "ApexClass" ["Foo"; "Bar"])));
    try reflexivity; discriminate.
Defined.

(** X9.  A manifest whose [Package] is an object without [types]:
    [updateManifest] of [src/flow-delete.js] returns a manifest whose types
    are the new entry alone; [updateManifest] of [src/flowDelete.js] throws
    a [TypeError]. *)
Theorem updateManifest_doc_without_types manifest pps members type :
  get_prop manifest "Package" = Ok (VObj pps) →
  lookup_prop "types" pps = None →
  flowDelete.updateManifest_doc manifest members type = Throw TypeError ∧
  ∃ manifest' pkg',
    flow_delete.updateManifest_doc manifest members type = Ok manifest' ∧
    get_prop manifest' "Package" = Ok pkg' ∧
    get_prop pkg' "types" = Ok (VArr [VObj [("members", VArr members); ("name", VStr type)]]).
Proof.
  intros Hp Htypes.
  destruct (get_prop_defined _ _ _ Hp) as (mps & -> & Hmps); [done|].
  split.
  - unfold flowDelete.updateManifest_doc. simpl. rewrite Hmps. simpl. now rewrite Htypes.
  - eexists _, _. split; [apply flow_delete_absent; [done|now rewrite Htypes]|].
    split; [apply with_types_Package|apply with_types_types].
Qed.

Lemma updateManifest_doc_without_types_witness :
  flowDelete.updateManifest_doc example_manifest_without_types [VStr "FlowA"] "Flow"
  = Throw TypeError ∧
  ∃ manifest' pkg',
    flow_delete.updateManifest_doc example_manifest_without_types [VStr "FlowA"] "Flow"
    = Ok manifest' ∧
    get_prop manifest' "Package" = Ok pkg' ∧
    get_prop pkg' "types" = Ok (VArr [VObj [("members", VArr [VStr "FlowA"]); ("name", VStr "Flow")]]).
Proof.
  eapply (updateManifest_doc_without_types example_manifest_without_types); reflexivity.
Defined.

(** Read, parse, change, build, write: the shape of both [updateManifest]. *)
Lemma update_file_frame ext path (change : value → result value) w :
  let run := (data ← readFile path;
              manifest ← parse ext data;
              manifest ← lift (change manifest);
              writeFile path (toXML ext manifest)) w in
  requests run.2 = requests w ∧
  console run.2 = console w ∧
  (∀ p, p ≠ path → files run.2 !! p = files w !! p) ∧
  (∀ e, run.1 = Throw e → run.2 = w).
Proof.
  unfold mbind, M_bind, readFile, parse, lift, writeFile. simpl.
  destruct (files w !! path) as [data|]; simpl; [|done].
  destruct (xml_parse ext data) as [manifest|]; simpl; [|done].
  destruct (change manifest) as [manifest'|]; simpl; [|done].
  repeat split; try done. intros p Hp. now rewrite lookup_insert_ne.
Qed.

(** X7.  [updateManifest] of either script, whatever its arguments and
    whether it returns or throws: it spawns nothing and logs nothing, every
    file but the one at [path] is as before, and when it throws that file
    is as before too. *)
Theorem updateManifest_touches_one_file ext path members type w :
  let run := flow_delete.updateManifest ext path members type w in
  let legacy := flowDelete.updateManifest ext path members type w in
  (requests run.2 = requests w ∧ console run.2 = console w ∧
   (∀ p, p ≠ path → files run.2 !! p = files w !! p) ∧
   (∀ e, run.1 = Throw e → run.2 = w)) ∧
  (requests legacy.2 = requests w ∧ console legacy.2 = console w ∧
   (∀ p, p ≠ path → files legacy.2 !! p = files w !! p) ∧
   (∀ e, legacy.1 = Throw e → legacy.2 = w)).
Proof.
  split.
  - apply (update_file_frame ext path
             (fun manifest => flow_delete.updateManifest_doc manifest members type)).
  - apply (update_file_frame ext path
             (fun manifest => flowDelete.updateManifest_doc manifest members type)).
Qed.

(** ** [fetchFlowVersions] *)


Lemma fetchFlowVersions_unusable_output_aux ext flows w fs output :
  run_process ext "sf" (query_args (soql (format_names flows))) (files w) = (fs, output) →
  match head (parse_output ext output) with
  | None => True
  | Some first => get_prop first "result" = Ok VUndefined
  end →
  fetchFlowVersions ext flows w
  = (Throw TypeError,
     World fs (requests w ++ [("sf", query_args (soql (format_names flows)))]) (console w)).
Proof.
  intros Hrun Hfirst.
  unfold fetchFlowVersions, spawnSync, lift, mbind at 1, M_bind. rewrite Hrun.
  destruct (head (parse_output ext output)) as [first|]; simpl; [|done].
  now rewrite Hfirst.
Qed.

(** X11.  When the output of the query has no chunk that is not empty, or
    when the first such chunk is not an object with a [result] (text that
    is not JSON, or the JSON of an error), [fetchFlowVersions] throws a
    [TypeError], after the request; chunks after the first are not looked
    at. *)
Theorem fetchFlowVersions_unusable_output ext flows w fs output :
  run_process ext "sf" (query_args (soql (format_names flows))) (files w) = (fs, output) →
  match head (parse_output ext output) with
  | None => True
  | Some first => get_prop first "result" = Ok VUndefined
  end →
  fetchFlowVersions ext flows w
  = (Throw TypeError,
     World fs (requests w ++ [("sf", query_args (soql (format_names flows)))]) (console w)).
Proof. apply fetchFlowVersions_unusable_output_aux. Qed.

Lemma fetchFlowVersions_unusable_output_witness :
  fetchFlowVersions example_run_silent (VStr <$> ["FlowA"; "FlowB"]) example_world
  = (Throw TypeError,
     World (files example_world)
           (requests example_world ++ [("sf", query_args (soql (format_names (VStr <$> ["FlowA"; "FlowB"]))))])
           (console example_world)).
Proof.
  apply (fetchFlowVersions_unusable_output example_run_silent (VStr <$> ["FlowA"; "FlowB"])
           example_world (files example_world) [None; Some ""; Some ""]).
  - reflexivity.
  - exact I.
Defined.

(** ** Version suffixes, again *)

Lemma split_first_hyphen_free s : hyphen_free (split_first s).
Proof.
  induction s as [|c s IH]; intros c' Hc'; simpl in Hc'.
  - now apply elem_of_nil in Hc'.
  - destruct (Ascii.eqb c hyphen) eqn:E; simpl in Hc'.
    + now apply elem_of_nil in Hc'.
    + apply elem_of_cons in Hc' as [->|Hc']; [|now apply IH].
      intros ->. now rewrite Ascii.eqb_refl in E.
Qed.

Lemma split_first_id s : hyphen_free s → split_first s = s.
Proof.
  induction s as [|c s IH]; intros Hs; simpl; [done|].
  destruct (Ascii.eqb c hyphen) eqn:E.
  - apply Ascii.eqb_eq in E. exfalso. apply (Hs c); [left|done].
  - f_equal. apply IH. intros c' Hc'. apply Hs. simpl. now right.
Qed.

(** X12.  [flow.split('-').at(0)]: the result has no hyphen, it is the
    beginning of the name, and cutting it again changes nothing. *)
Theorem split_first_stable s :
  hyphen_free (split_first s) ∧
  (∃ rest, s = split_first s +:+ rest) ∧
  split_first (split_first s) = split_first s.
Proof.
  split; [apply split_first_hyphen_free|]. split.
  - induction s as [|c s [rest IH]]; simpl; [now exists ""|].
    destruct (Ascii.eqb c hyphen); simpl.
    + now exists (String c s).
    + exists rest. change (String c s = String c (split_first s +:+ rest)).
      f_equal. exact IH.
  - apply split_first_id, split_first_hyphen_free.
Qed.

Lemma strip_version_not_string m : (∀ s, m ≠ VStr s) → flow_delete.strip_version m = Throw TypeError.
Proof. destruct m; simpl; try done. intros H. now destruct (H s). Qed.

Lemma strip_version_cases m :
  flow_delete.strip_version m = Throw TypeError ∨ ∃ s, flow_delete.strip_version m = Ok (VStr s).
Proof. destruct m; simpl; eauto. Qed.

(** X14.  [src/flow-delete.js]: when a member of the [Flow] entry is not a
    string (a name made of digits, which the parser returns as a number,
    or an entry without members, whose list is [[undefined]]), the
    computation of the delete list throws a [TypeError]. *)
Theorem deletedFlows_not_string destructiveXml entry members m :
  flow_delete.filterType destructiveXml "Flow" = Ok entry →
  get_prop entry "members" = Ok (VArr members) →
  m ∈ members → (∀ s, m ≠ VStr s) →
  flow_delete.deletedFlows destructiveXml = Throw TypeError.
Proof.
  intros Hf Hm Hin Hns. unfold flow_delete.deletedFlows. rewrite Hf. simpl. rewrite Hm. simpl.
  clear Hf Hm. induction members as [|x members IH]; [now apply elem_of_nil in Hin|].
  cbn [mapM]. apply elem_of_cons in Hin as [<-|Hin].
  - now rewrite strip_version_not_string.
  - destruct (strip_version_cases x) as [->|[s ->]]; [done|]. simpl. now rewrite IH.
Qed.

Lemma deletedFlows_not_string_witness :
  flow_delete.deletedFlows
    (example_manifest (VObj [("members", VArr [VStr "FlowA"; VNum 2024]); ("name", VStr "Flow")]))
  = Throw TypeError.
Proof.
  eapply (deletedFlows_not_string _ _ [VStr "FlowA"; VNum 2024] (VNum 2024)).
  - reflexivity.
  - reflexivity.
  - right. left.
  - discriminate.
Defined.

(** X15.  What [fetchFlowVersions] makes of the records of a response, put
    through the stripping of [src/flow-delete.js], gives back the names of
    the records, one per record, provided the names have no hyphen: the
    identifiers a run writes into the destructive manifest are read back as
    flow names by the next run. *)
Theorem format_then_strip records rvs :
  Forall2 encodes records rvs →
  Forall (fun r => hyphen_free (artifactName r)) records →
  (ids ← js_map format_version (VArr rvs); js_map flow_delete.strip_version (VArr ids))
  = Ok (VStr <$> (artifactName <$> records)).
Proof.
  intros Henc Hfree. simpl. rewrite (map_format_version _ _ Henc). simpl.
  clear Henc. induction Hfree as [|r records Hr _ IH]; [done|].
  rewrite !fmap_cons. cbn [mapM]. simpl. unfold deletable at 1.
  rewrite (split_first_suffix _ _ Hr). simpl. now rewrite IH.
Qed.

Lemma format_then_strip_witness :
  (ids ← js_map format_version
           (VArr [example_record "FlowB" 1 "Obsolete"; example_record "FlowB" 2 "Active"]);
   js_map flow_delete.strip_version (VArr ids))
  = Ok (VStr <$> ["FlowB"; "FlowB"]).
Proof.
  apply (format_then_strip
           [ {| artifactName := "FlowB"; versionNumber := 1; status := "Obsolete" |};
             {| artifactName := "FlowB"; versionNumber := 2; status := "Active" |} ]).
  - repeat constructor.
  - repeat constructor; intros c Hc; simpl in Hc;
      repeat (apply elem_of_cons in Hc as [->|Hc]; [discriminate|]);
      now apply elem_of_nil in Hc.
Defined.

(** ** Deactivation, again *)


(** One name: the callback spawns nothing and writes at most the
    definition file of that name. *)
Lemma deactivateFlow_frame ext flow w :
  let run := flow_delete.deactivateFlow ext flow w in
  requests run.2 = requests w ∧
  ∀ path, path ≠ flow_delete.definition_path flow → files run.2 !! path = files w !! path.
Proof.
  unfold flow_delete.deactivateFlow, existsSync, readFile, parse, lift, writeFile,
    console_log, mbind, M_bind. simpl.
  destruct (bool_decide (is_Some (files w !! flow_delete.definition_path flow))); simpl.
  - destruct (files w !! flow_delete.definition_path flow) as [data|]; simpl; [|done].
    destruct (xml_parse ext data) as [fd|]; simpl; [|done].
    destruct (flow_delete.deactivate_descriptor fd) as [fd'|]; simpl; [|done].
    split; [done|]. intros path Hpath. now rewrite lookup_insert_ne.
  - split; [done|]. intros path Hpath. now rewrite lookup_insert_ne.
Qed.

Lemma forEach_deactivateFlow_frame ext flows w :
  let run := forEach (flow_delete.deactivateFlow ext) flows w in
  requests run.2 = requests w ∧
  ∀ path, path ∉ flow_delete.definition_path <$> flows →
          files run.2 !! path = files w !! path.
Proof.
  cbv zeta.
  revert w. induction flows as [|flow flows IH]; intros w; [done|].
  cbn [forEach]. unfold mbind, M_bind.
  pose proof (deactivateFlow_frame ext flow w) as [Hreq Hfiles]. cbv zeta in Hreq, Hfiles.
  destruct (flow_delete.deactivateFlow ext flow w) as [[[]|e] w1]; cbn [fst snd] in *.
  - destruct (IH w1) as [Hreq' Hfiles']. split; [congruence|].
    intros path Hpath. rewrite fmap_cons, not_elem_of_cons in Hpath.
    destruct Hpath as [Hne Hpath]. rewrite Hfiles' by done. now apply Hfiles.
  - split; [done|]. intros path Hpath. rewrite fmap_cons, not_elem_of_cons in Hpath.
    now apply Hfiles.
Qed.

(** X17.  [deactivateFlows] of [src/flow-delete.js], whatever the names and
    whether it returns or throws: it spawns no process, and every file
    that is not the definition file of one of the names is as before. *)
Theorem deactivateFlows_frame ext flows w :
  let run := flow_delete.deactivateFlows ext flows w in
  requests run.2 = requests w ∧
  ∀ path, path ∉ flow_delete.definition_path <$> flows →
          files run.2 !! path = files w !! path.
Proof. cbv zeta. rewrite deactivateFlows_forEach. apply forEach_deactivateFlow_frame. Qed.

(** X18.  [fd.FlowDefinition.activeVersionNumber = 0] on a document that
    already went through it changes nothing: deactivating a flow that is
    deactivated leaves its definition as it is. *)
Theorem deactivate_descriptor_twice fd fd' :
  flow_delete.deactivate_descriptor fd = Ok fd' →
  flow_delete.deactivate_descriptor fd' = Ok fd'.
Proof.
  unfold flow_delete.deactivate_descriptor.
  destruct (get_prop fd "FlowDefinition") as [d|] eqn:Hd; simpl; [|done].
  destruct (set_prop d "activeVersionNumber" (VNum 0)) as [d'|] eqn:Hset; simpl; [|done].
  intros [= <-].
  assert (d ≠ VUndefined) as Hne by (intros ->; done).
  destruct (get_prop_defined _ _ _ Hd Hne) as (fps & -> & Hfps).
  simpl. rewrite lookup_store_eq. simpl.
  destruct d; simpl in *; try done; injection Hset as <-; simpl;
    rewrite ?store_store; done.
Qed.

Lemma deactivate_descriptor_twice_witness :
  flow_delete.deactivate_descriptor (example_descriptor 0) = Ok (example_descriptor 0).
Proof.
  apply (deactivate_descriptor_twice (example_descriptor 3)). reflexivity.
Defined.

(** X19.  [deactivateFlows] of [src/flow-delete.js] stops at the first name
    whose definition file cannot be used, because the parser throws on it
    or because the document has no [FlowDefinition] element (a
    [TypeError]).  The world is then the one the names before it left:
    their definition files are written and stay so, and the names after it
    are not looked at. *)
Theorem deactivateFlows_stops ext pre flow post w w1 data e :
  flow_delete.deactivateFlows ext pre w = (Ok tt, w1) →
  files w1 !! flow_delete.definition_path flow = Some data →
  xml_parse ext data = Throw e ∨
  (∃ fd, xml_parse ext data = Ok fd ∧ get_prop fd "FlowDefinition" = Ok VUndefined ∧
         e = TypeError) →
  flow_delete.deactivateFlows ext (pre ++ flow :: post) w = (Throw e, w1).
Proof.
  intros Hpre Hfile Hcause. rewrite !deactivateFlows_forEach in *.
  rewrite forEach_app, Hpre. cbn [forEach]. unfold mbind at 1, M_bind.
  assert (flow_delete.deactivateFlow ext flow w1 = (Throw e, w1)) as ->; [|done].
  unfold flow_delete.deactivateFlow, existsSync, readFile, parse, lift, mbind, M_bind.
  rewrite Hfile. rewrite bool_decide_eq_true_2 by eauto. cbv beta iota. rewrite Hfile.
  destruct Hcause as [->|(fd & -> & Hfd & ->)]; [done|].
  unfold flow_delete.deactivate_descriptor. now rewrite Hfd.
Qed.

Lemma deactivateFlows_stops_witness :
  let w1 := World (<[flow_delete.definition_path (VStr "FlowA")
                     := render flow_delete.createFlowDefinition]>
                     (files example_world_descriptors))
                  [] ["FlowA - deactivated"] in
  flow_delete.deactivateFlows example_run_broken_descriptor
    ([VStr "FlowA"] ++ VStr "FlowB" :: [VStr "FlowC"]) example_world_descriptors
  = (Throw TypeError, w1).
Proof.
  intros w1.
  apply (deactivateFlows_stops example_run_broken_descriptor [VStr "FlowA"] (VStr "FlowB")
           [VStr "FlowC"] example_world_descriptors w1 "<descriptor/>" TypeError).
  - vm_compute. reflexivity.
  - vm_compute. reflexivity.
  - right. exists (VObj [("Flow", VStr "")]). repeat split; reflexivity.
Defined.

(** X20.  A definition whose [FlowDefinition] is not an object but a text,
    a number or a boolean (an empty element without attributes is parsed as
    an empty string): the assignment of [activeVersionNumber] is dropped,
    as the script does not run in strict mode, and the document comes out
    unchanged, without an [activeVersionNumber]. *)
Theorem deactivate_descriptor_primitive fd d :
  get_prop fd "FlowDefinition" = Ok d →
  is_primitive d = true → d ≠ VUndefined → d ≠ VNull →
  flow_delete.deactivate_descriptor fd = Ok fd ∧
  (d' ← get_prop fd "FlowDefinition"; get_prop d' "activeVersionNumber") = Ok VUndefined.
Proof.
  intros Hd Hprim Hu Hn.
  destruct (get_prop_defined _ _ _ Hd Hu) as (fps & -> & Hfps).
  unfold flow_delete.deactivate_descriptor. rewrite Hd. simpl.
  destruct d; simpl in *; try done; now rewrite (store_same _ _ _ Hfps).
Qed.

Lemma deactivate_descriptor_primitive_witness :
  flow_delete.deactivate_descriptor example_empty_descriptor = Ok example_empty_descriptor ∧
  (d' ← get_prop example_empty_descriptor "FlowDefinition"; get_prop d' "activeVersionNumber")
  = Ok VUndefined.
Proof.
  apply (deactivate_descriptor_primitive example_empty_descriptor (VStr ""));
    try reflexivity; discriminate.
Defined.

(** X21.  [deactivateFlows] of [src/flowDelete.js] creates no definition:
    after its one retrieve request, at the first name whose definition file
    is not there, it throws the error of [readFileSync]; the files of the
    names before it are written, nothing is written for the names after
    it. *)
Theorem deactivateFlows_legacy_missing_file ext pre flow post w fs output w1 :
  let retrieve :=
    ["project"; "retrieve"; "start"]
      ++ flat_map (fun flow => ["--metadata"; "flow:" +:+ to_string flow])
           (pre ++ flow :: post) in
  run_process ext "sf" retrieve (files w) = (fs, output) →
  forEach (flowDelete.deactivateFlow ext) pre
    (World fs (requests w ++ [("sf", retrieve)]) (console w)) = (Ok tt, w1) →
  files w1 !! flowDelete.definition_path flow = None →
  flowDelete.deactivateFlows ext (VArr (pre ++ flow :: post)) w = (Throw SystemError, w1).
Proof.
  intros retrieve Hrun Hpre Hfile.
  unfold flowDelete.deactivateFlows, spawnSync, mbind at 1, M_bind. fold retrieve.
  rewrite Hrun. rewrite forEach_app, Hpre. cbn [forEach]. unfold mbind at 1, M_bind.
  unfold flowDelete.deactivateFlow, readFile, mbind, M_bind. now rewrite Hfile.
Qed.

Lemma deactivateFlows_legacy_missing_file_witness :
  flowDelete.deactivateFlows example_run_descriptors (VArr ([] ++ VStr "FlowA" :: [VStr "FlowB"]))
    example_world_descriptors
  = (Throw SystemError,
     World (files example_world_descriptors)
           [("sf", ["project"; "retrieve"; "start";
                    "--metadata"; "flow:FlowA"; "--metadata"; "flow:FlowB"])] []).
Proof.
  apply (deactivateFlows_legacy_missing_file example_run_descriptors [] (VStr "FlowA")
           [VStr "FlowB"] example_world_descriptors (files example_world_descriptors)
           [None; None; None]); reflexivity.
Defined.

(** ** The top level of [src/flow-delete.js] *)

(** The run up to the query: the definitions are written, then the package
    manifest, read again from the file, gets the existing definitions and
    the delete list under [FlowDefinition]. *)
Lemma main_until_query
    ext w packagePath destructivePath d p destructiveXml manifest existing deleted w1 manifest' :
  files w !! destructivePath = Some d →
  xml_parse ext d = Ok destructiveXml →
  files w !! packagePath = Some p →
  xml_parse ext p = Ok manifest →
  flow_delete.existingDefinitions manifest = Ok (VArr existing) →
  flow_delete.deletedFlows destructiveXml = Ok deleted →
  deleted ≠ [] →
  flow_delete.deactivateFlows ext deleted w = (Ok tt, w1) →
  packagePath ∉ flow_delete.definition_path <$> deleted →
  flow_delete.updateManifest_doc manifest (existing ++ deleted) "FlowDefinition" = Ok manifest' →
  flow_delete.main ext packagePath destructivePath w
  = (versions ← fetchFlowVersions ext deleted;
     flow_delete.updateManifest ext destructivePath versions "Flow")
      (World (<[packagePath := xml_build ext manifest']> (files w1)) (requests w) (console w1)).
Proof.
  intros Hd Hdp Hp Hpp He Hdel Hne Hdeact Hpath Hdoc.
  pose proof (forEach_deactivateFlow_frame ext deleted w) as [Hreq Hfiles].
  cbv zeta in Hreq, Hfiles. rewrite <- deactivateFlows_forEach, Hdeact in Hreq, Hfiles.
  cbn [fst snd] in Hreq, Hfiles.
  unfold flow_delete.main. unfold mbind at 1 2 3 4 5 6, M_bind, readFile, parse, lift.
  rewrite Hd, Hdp, Hp, Hpp, He, Hdel.
  destruct deleted as [|flow deleted]; [done|]. cbn [length Nat.ltb Nat.leb truthy spread].
  cbv beta iota. unfold mbind at 1, result_bind. unfold mbind at 1 2 3, M_bind.
  rewrite Hdeact.
  unfold flow_delete.updateManifest at 1, readFile, parse, lift, writeFile, toXML,
    mbind at 1 2 3, M_bind.
  rewrite (Hfiles packagePath Hpath), Hp, Hpp, Hdoc, Hreq. reflexivity.
Qed.

(** X22.  [src/flow-delete.js] writes as it goes.  When the definitions and
    the package manifest went through and the query then gives nothing
    usable, the run ends in a [TypeError], with one request issued: the
    files the query ran on already hold the new package manifest (and the
    definitions), while the destructive manifest is the one of the start.
    Nothing is undone. *)
Theorem main_fails_after_package_manifest
    ext w packagePath destructivePath d p destructiveXml manifest existing deleted w1 manifest'
    fs output :
  files w !! destructivePath = Some d →
  xml_parse ext d = Ok destructiveXml →
  files w !! packagePath = Some p →
  xml_parse ext p = Ok manifest →
  flow_delete.existingDefinitions manifest = Ok (VArr existing) →
  flow_delete.deletedFlows destructiveXml = Ok deleted →
  deleted ≠ [] →
  flow_delete.deactivateFlows ext deleted w = (Ok tt, w1) →
  packagePath ∉ flow_delete.definition_path <$> deleted →
  destructivePath ∉ flow_delete.definition_path <$> deleted →
  destructivePath ≠ packagePath →
  flow_delete.updateManifest_doc manifest (existing ++ deleted) "FlowDefinition" = Ok manifest' →
  let before_query := <[packagePath := xml_build ext manifest']> (files w1) in
  run_process ext "sf" (query_args (soql (format_names deleted))) before_query = (fs, output) →
  match head (parse_output ext output) with
  | None => True
  | Some first => get_prop first "result" = Ok VUndefined
  end →
  flow_delete.main ext packagePath destructivePath w
  = (Throw TypeError,
     World fs (requests w ++ [("sf", query_args (soql (format_names deleted)))]) (console w1)) ∧
  before_query !! packagePath = Some (xml_build ext manifest') ∧
  before_query !! destructivePath = Some d.
Proof.
  intros Hd Hdp Hp Hpp He Hdel Hne Hdeact Hpath Hdpath Hdiff Hdoc before_query Hrun Hfirst.
  split; [|split].
  - rewrite (main_until_query _ _ _ _ _ _ _ _ _ _ _ _ Hd Hdp Hp Hpp He Hdel Hne Hdeact Hpath Hdoc).
    unfold mbind at 1, M_bind. unfold before_query in Hrun.
    now rewrite (fetchFlowVersions_unusable_output_aux ext deleted
                   (World (<[packagePath := xml_build ext manifest']> (files w1))
                          (requests w) (console w1)) fs output Hrun Hfirst).
  - apply lookup_insert_eq.
  - unfold before_query. rewrite lookup_insert_ne by done.
    pose proof (forEach_deactivateFlow_frame ext deleted w) as [_ Hfiles].
    cbv zeta in Hfiles. rewrite <- deactivateFlows_forEach, Hdeact in Hfiles.
    cbn [fst snd] in Hfiles. now rewrite (Hfiles destructivePath Hdpath).
Qed.

Ltac not_among_paths :=
  let H := fresh in
  vm_compute; intros H;
  repeat (apply elem_of_cons in H as [H|H]; [discriminate|]);
  now apply elem_of_nil in H.

Lemma main_fails_after_package_manifest_witness :
  let deleted := VStr <$> ["FlowA"; "FlowB"] in
  let w1 := (flow_delete.deactivateFlows example_run_silent deleted example_world).2 in
  let manifest' :=
    example_manifest (VArr [example_type "ApexClass" ["Foo"; "Bar"];
                            example_type "FlowDefinition" ["FlowA"; "FlowB"]]) in
  let before_query := <["package.xml" := xml_build example_run_silent manifest']> (files w1) in
  flow_delete.main example_run_silent "package.xml" "destructiveChanges.xml" example_world
  = (Throw TypeError,
     World before_query
           (requests example_world ++ [("sf", query_args (soql (format_names deleted)))])
           (console w1)) ∧
  before_query !! "package.xml" = Some (xml_build example_run_silent manifest') ∧
  before_query !! "destructiveChanges.xml" = Some "<destructive/>".
Proof.
  intros deleted w1 manifest' before_query.
  refine (main_fails_after_package_manifest example_run_silent example_world
            "package.xml" "destructiveChanges.xml" "<destructive/>" "<package/>"
            (example_manifest (example_type "Flow" ["FlowA"; "FlowB"]))
            (example_manifest (example_type "ApexClass" ["Foo"; "Bar"]))
            [] deleted w1 manifest' before_query [None; Some ""; Some ""]
            _ _ _ _ _ _ _ _ _ _ _ _ _ _);
    try (vm_compute; reflexivity); try discriminate; try not_among_paths.
  all: exact I.
Defined.



(** X13.  [src/flow-delete.js]: the existing definitions the top level
    reads from the package manifest are always a list (empty without a
    [FlowDefinition] entry), so the test on them at line 57 always takes
    its first branch and the list merged into the package manifest always
    starts with them. *)
Theorem existingDefinitions_list manifest existing :
  flow_delete.existingDefinitions manifest = Ok existing →
  ∃ l, existing = VArr l ∧ truthy existing = true ∧ spread existing = Ok l.
Proof.
  unfold flow_delete.existingDefinitions.
  destruct (flow_delete.filterType manifest "FlowDefinition") as [entry|] eqn:Hf; simpl; [|done].
  destruct (filterType_members_array _ _ _ Hf) as [l Hl].
  destruct (truthy entry); simpl.
  - rewrite Hl. intros [= <-]. now exists l.
  - intros [= <-]. now exists [].
Qed.

Lemma existingDefinitions_list_witness :
  ∃ l, VArr [VStr "Old"] = VArr l ∧ truthy (VArr [VStr "Old"]) = true ∧
       spread (VArr [VStr "Old"]) = Ok l.
Proof.
  apply (existingDefinitions_list
           (example_manifest (example_type_scalar "FlowDefinition" "Old"))).
  reflexivity.
Defined.

(** ** The top level of [src/flowDelete.js] *)

Lemma spread_throws x e : spread x = Throw e → e = TypeError.
Proof. destruct x; simpl; congruence. Qed.

(** X24.  [src/flowDelete.js] on a destructive manifest whose [Flow] entry
    has one member, which the parser returns as a string and [filterType]
    hands on as it is: the run throws a [TypeError] (the string has no
    [forEach], and spreading the existing definitions may throw before
    that), with nothing spawned and nothing written. *)
Theorem main_legacy_single_flow
    ext w packagePath destructivePath d p destructiveXml manifest existing flow :
  files w !! destructivePath = Some d →
  xml_parse ext d = Ok destructiveXml →
  files w !! packagePath = Some p →
  xml_parse ext p = Ok manifest →
  flowDelete.existingDefinitions manifest = Ok existing →
  flowDelete.deletedFlows destructiveXml = Ok (VStr flow) →
  flow ≠ "" →
  flowDelete.main ext packagePath destructivePath w = (Throw TypeError, w).
Proof.
  intros Hd Hdp Hp Hpp He Hdel Hflow.
  unfold flowDelete.main. unfold mbind at 1 2 3 4 5 6 7, M_bind, readFile, parse, lift.
  rewrite Hd, Hdp, Hp, Hpp, He, Hdel. cbn [flowDelete.length_positive].
  destruct flow as [|c flow]; [done|]. cbn [String.length Nat.ltb Nat.leb].
  cbv beta iota. unfold mbind at 1, M_bind.
  destruct (truthy existing).
  - destruct (spread existing) as [l|e] eqn:Hspread; simpl.
    + reflexivity.
    + now rewrite (spread_throws _ _ Hspread).
  - reflexivity.
Qed.

Lemma main_legacy_single_flow_witness :
  flowDelete.main example_run_single_flow "package.xml" "destructiveChanges.xml" example_world
  = (Throw TypeError, example_world).
Proof.
  apply (main_legacy_single_flow example_run_single_flow example_world
           "package.xml" "destructiveChanges.xml" "<destructive/>" "<package/>"
           (example_manifest (example_type_scalar "Flow" "FlowA"))
           (example_manifest (example_type "ApexClass" ["Foo"; "Bar"]))
           (VArr []) "FlowA"); try reflexivity. discriminate.
Defined.

(** ** [findProjectRoot] *)

(** X25.  What [findProjectRoot] returns is the start directory or one
    above it, never the root, it holds a [package.json], and no directory
    from the start up to it holds one: it is the nearest. *)
Theorem findProjectRoot_nearest fs start dir :
  findProjectRoot fs start = Some dir →
  dir ≠ [] ∧ dir `suffix_of` start ∧ is_Some (fs !! package_json dir) ∧
  ∀ d, d `suffix_of` start → dir `suffix_of` d → d ≠ dir → fs !! package_json d = None.
Proof.
  induction start as [|s start IH]; [done|]. cbn [findProjectRoot].
  destruct (bool_decide (is_Some (fs !! package_json (s :: start)))) eqn:E.
  - intros [= <-]. apply bool_decide_eq_true_1 in E.
    repeat split; try done.
    intros d Hd1 Hd2 Hne. exfalso. apply Hne. now apply (anti_symm suffix).
  - intros Hfind. apply bool_decide_eq_false_1 in E.
    destruct (IH Hfind) as (Hnil & Hsuf & Hsome & Hnear).
    split; [done|]. split; [now apply suffix_cons_r|]. split; [done|].
    intros d Hd1 Hd2 Hne.
    destruct d as [|x d]; [now apply suffix_nil_inv in Hd2|].
    apply suffix_cons_inv in Hd1 as [[= -> ->]|Hd1]; [|now apply Hnear].
    destruct (fs !! package_json (s :: start)) eqn:Hfile; [|done].
    exfalso. apply E. eauto.
Qed.

Lemma findProjectRoot_nearest_witness :
  let fs : gmap string string :=
    {[ "/home/repo/package.json" := "{}"; "/package.json" := "{}" ]} in
  ["repo"; "home"] ≠ [] ∧
  ["repo"; "home"] `suffix_of` ["scripts"; "repo"; "home"] ∧
  is_Some (fs !! package_json ["repo"; "home"]) ∧
  ∀ d, d `suffix_of` ["scripts"; "repo"; "home"] → ["repo"; "home"] `suffix_of` d →
       d ≠ ["repo"; "home"] → fs !! package_json d = None.
Proof.
  intros fs. apply (findProjectRoot_nearest fs ["scripts"; "repo"; "home"]).
  vm_compute. reflexivity.
Defined.

(** X26.  [findProjectRoot] throws exactly when no directory from the start
    up to, but not including, the root holds a [package.json]: the loop
    ends at the root without looking into it, so a [package.json] in the
    root directory is not found. *)
Theorem findProjectRoot_throws fs start :
  findProjectRoot fs start = None ↔
  ∀ d, d ≠ [] → d `suffix_of` start → fs !! package_json d = None.
Proof.
  induction start as [|s start IH]; cbn [findProjectRoot].
  - split; [|done]. intros _ d Hd Hsuf. apply suffix_nil_inv in Hsuf. done.
  - destruct (bool_decide (is_Some (fs !! package_json (s :: start)))) eqn:E.
    + apply bool_decide_eq_true_1 in E. split; [done|].
      intros H. rewrite (H (s :: start)) in E; [|done|done]. now destruct E.
    + apply bool_decide_eq_false_1 in E. rewrite IH. split.
      * intros H d Hd Hsuf. destruct d as [|x d]; [done|].
        apply suffix_cons_inv in Hsuf as [[= -> ->]|Hsuf]; [|now apply H].
        destruct (fs !! package_json (s :: start)); [|done]. exfalso. apply E. eauto.
      * intros H d Hd Hsuf. apply H; [done|now apply suffix_cons_r].
Qed.
